(** * Einstein: the Laboratory and Repository services

    A shallow embedding of [Laboratory] (create / run) and of [Repository]
    (initialize / crawlBlobs / processBenchmark / select), with the
    collaborators they consume (blob storage, the local database, naming,
    YAML, secrets) kept behind small interfaces. *)

From stdpp Require Import base strings list gmap fin_maps.

Local Open Scope string_scope.
Local Open Scope list_scope.

(* ===================================================================== *)
(** ** Exceptions and the effect monad *)
(* ===================================================================== *)

(** What a JavaScript [throw] carries.  [TypeError] is the only class the
    two services raise themselves; the others stand for what the
    collaborators raise. *)
Inductive Exn : Type :=
| TypeError (message : string)
| StorageError (message : string)
| YAMLException (message : string)
| SecretsError (message : string)
| DatabaseError (message : string).

Inductive Result (A : Type) : Type :=
| Ok (a : A)
| Throw (e : Exn).
Arguments Ok {A} a.
Arguments Throw {A} e.

(** An [async] body run to completion: it threads the state and either
    returns or throws.  The state reached before a throw is kept, as the
    effects of a JavaScript function are when it throws. *)
Definition M (S A : Type) : Type := S -> Result A * S.

#[global] Instance M_ret {S} : MRet (M S) :=
  fun A (a : A) (s : S) => (Ok a, s).

#[global] Instance M_bind {S} : MBind (M S) :=
  fun A B (f : A -> M S B) (m : M S A) (s : S) =>
    match m s with
    | (Ok a, s') => f a s'
    | (Throw e, s') => (Throw e, s')
    end.

Definition throw {S A} (e : Exn) : M S A := fun s => (Throw e, s).

Definition liftR {S A} (r : Result A) : M S A := fun s => (r, s).

(** [try { m } catch (e) { h e }] *)
Definition tryCatch {S A} (m : M S A) (h : Exn -> M S A) : M S A :=
  fun s =>
    match m s with
    | (Ok a, s') => (Ok a, s')
    | (Throw e, s') => h e s'
    end.

(* ===================================================================== *)
(** ** Data model *)
(* ===================================================================== *)

(** The double-quote character of the "unsupported kind" message. *)
Definition dquote : string := String (Ascii.ascii_of_nat 34) EmptyString.

(** [EntityDescription]; [created] is kept as the text it is stored and
    tabulated as. *)
Record EntityDescription : Type := {
  name : string;
  description : string;
  owner : string;
  created : string
}.

(** The description interfaces in the sources are those of an earlier
    version ([containerBaseName], [containerVersion]); the two services
    are written against a later one, with [kind] and [image].  The three
    records below have the fields the services read. *)
Module BenchmarkDescription.
(** Modelled from the spec: the [BenchmarkDescription] the services use
    is not in the sources; a benchmark is an entity with a container
    image reference. *)
Record t : Type := {
  entity : EntityDescription;
  image : string
}.
End BenchmarkDescription.

Module CandidateDescription.
(** Modelled from the spec: the [CandidateDescription] the services use
    is not in the sources; a candidate has a benchmark id, a container
    image reference and optional embedded secret fields. *)
Record t : Type := {
  entity : EntityDescription;
  benchmarkId : string;
  image : string;
  (* secret-bearing fields: field name, ciphertext (or plaintext once
     decrypted) *)
  secrets : list (string * string)
}.
End CandidateDescription.

Module SuiteDescription.
(** [SuiteDescription] *)
Record t : Type := {
  entity : EntityDescription;
  benchmarkId : string;
  domainData : list string;
  testData : list string
}.
End SuiteDescription.

(** [AnyDescription], discriminated by [description.kind].  [AOther] is a
    description whose [kind] is none of the three [create] switches on. *)
Inductive AnyDescription : Type :=
| ABenchmark (d : BenchmarkDescription.t)
| ACandidate (d : CandidateDescription.t)
| ASuite (d : SuiteDescription.t)
| AOther (kind : string) (d : EntityDescription).

(** The values of [description.kind]. *)
Inductive Kind : Type :=
| BENCHMARK
| CANDIDATE
| SUITE
| UNSUPPORTED (tag : string).

Definition kindOf (d : AnyDescription) : Kind :=
  match d with
  | ABenchmark _ => BENCHMARK
  | ACandidate _ => CANDIDATE
  | ASuite _ => SUITE
  | AOther tag _ => UNSUPPORTED tag
  end.

(** [`${description.kind}`]; the three supported kinds are never printed. *)
Definition kindText (k : Kind) : string :=
  match k with
  | BENCHMARK => "benchmark"
  | CANDIDATE => "candidate"
  | SUITE => "suite"
  | UNSUPPORTED tag => tag
  end.

Record KeyPair : Type := {
  publicKey : string;
  privateKey : string
}.

(* ===================================================================== *)
(** ** Collaborators *)
(* ===================================================================== *)

(** The blob storage of [../cloud] ([IStorage], [RamDisk]) is not in the
    sources; a disk is the finite map from blob names to their content. *)
Module RamDisk.
(** Modelled from the spec: [writeBlob(key, bytes, allowOverwrite)] of the
    absent storage.  Writes are create-once: a write that does not allow
    overwriting rejects an existing key. *)
Definition writeBlob (name buffer : string) (allowOverwrite : bool)
    (disk : gmap string string) : Result (gmap string string) :=
  match disk !! name with
  | Some _ =>
      if allowOverwrite then Ok (<[name := buffer]> disk)
      else Throw (StorageError name)
  | None => Ok (<[name := buffer]> disk)
  end.

(** Modelled from the spec: [readBlob(key)] of the absent storage; it
    fails if the blob is absent. *)
Definition readBlob (name : string) (disk : gmap string string)
    : Result string :=
  match disk !! name with
  | Some buffer => Ok buffer
  | None => Throw (StorageError name)
  end.

(** Modelled from the spec: [listBlobs()] of the absent storage, the
    sequence of the keys. *)
Definition listBlobs (disk : gmap string string) : list string :=
  (map_to_list disk).*1.
End RamDisk.

(** [../naming]: storage keys, collections and run identifiers.
    [createRunId] is impure in the source; [freshRunId n] is the
    identifier its [n]-th call returns. *)
Class Naming : Type := {
  encodeBenchmark : string -> string;
  encodeCandidate : string -> string;
  encodeSuite : string -> string;
  encodeLog : string -> string;
  getCollection : string -> string;
  freshRunId : nat -> string
}.

(** [js-yaml], and the decoding half of [./loaders]. *)
Class Yaml : Type := {
  safeDump : AnyDescription -> string;
  safeLoadBenchmark : string -> option BenchmarkDescription.t;
  safeLoadCandidate : string -> option CandidateDescription.t;
  safeLoadSuite : string -> option SuiteDescription.t
}.

(** [./loaders] is not in the sources.  A loader reads one blob from
    storage and decodes it; the name of the blob it reads for an id is
    left open here: the id itself, or its encoding by [../naming]. *)
Class Loaders : Type := {
  suiteBlob : string -> string;
  candidateBlob : string -> string
}.

(** [../secrets]: [decryptSecrets] replaces the ciphertext of the secret
    fields of a candidate by plaintext, or throws. *)
Class Secrets : Type := {
  decryptSecrets : CandidateDescription.t -> string -> Result CandidateDescription.t
}.

(* ===================================================================== *)
(** ** The world of the Laboratory *)
(* ===================================================================== *)

Record Volume : Type := {
  mount : string;
  storage : gmap string string
}.

(** [new BlobLogger(this.cloudStorage, host, blob)]: it logs into the
    shared cloud storage. *)
Record BlobLogger : Type := {
  loggerHost : string;
  loggerBlob : string
}.

(** The arguments of one [orchestrator.createWorker] call.  Its [storage]
    argument is always [this.cloudStorage], the one shared store. *)
Record WorkerRequest : Type := {
  hostname : string;
  imageId : string;
  volumes : list Volume;
  environment : list (string * string);
  logger : BlobLogger
}.

(** What the Laboratory does to its collaborators, in order. *)
Inductive Event : Type :=
| Log (message : string)
| LoadSuite (suiteId : string)
| LoadCandidate (candidateId : string)
| CreateWorker (request : WorkerRequest).

(** The part of [World] the Laboratory acts on: the cloud storage, the
    trace of what was asked of the logger ([world.logger], an [ILogger]),
    of the loaders and of the orchestrator, and the number of run ids
    issued so far. *)
Record World : Type := {
  cloudStorage : gmap string string;
  events : list Event;
  runsCreated : nat
}.

Record Laboratory : Type := {
  keys : KeyPair
}.

Definition emit (e : Event) : M World unit :=
  fun w =>
    (Ok tt,
     {| cloudStorage := cloudStorage w;
        events := events w ++ [e];
        runsCreated := runsCreated w |}).

Definition log (message : string) : M World unit := emit (Log message).

Definition writeCloudBlob (name buffer : string) (allowOverwrite : bool)
    : M World unit :=
  fun w =>
    match RamDisk.writeBlob name buffer allowOverwrite (cloudStorage w) with
    | Ok disk =>
        (Ok tt,
         {| cloudStorage := disk;
            events := events w;
            runsCreated := runsCreated w |})
    | Throw e => (Throw e, w)
    end.

Definition readCloudBlob (name : string) : M World string :=
  fun w => (RamDisk.readBlob name (cloudStorage w), w).

(** The [createWorker] calls among a list of events. *)
Definition workerRequests (es : list Event) : list WorkerRequest :=
  omap (fun e => match e with CreateWorker r => Some r | _ => None end) es.

(** The candidate loads among a list of events. *)
Definition candidateLoads (es : list Event) : list string :=
  omap (fun e => match e with LoadCandidate c => Some c | _ => None end) es.

Definition logged (es : list Event) : list string :=
  omap (fun e => match e with Log m => Some m | _ => None end) es.

Section Laboratory.
Context `{Naming} `{Yaml} `{Loaders} `{Secrets}.

Definition createRunId : M World string :=
  fun w =>
    (Ok (freshRunId (runsCreated w)),
     {| cloudStorage := cloudStorage w;
        events := events w;
        runsCreated := S (runsCreated w) |}).

(** Modelled from the spec: [loadSuite] of the absent [./loaders]; it
    reads the blob of the suite from storage and decodes it. *)
Definition loadSuite (suiteId : string) : M World SuiteDescription.t :=
  emit (LoadSuite suiteId);;
  buffer ← readCloudBlob (suiteBlob suiteId);
  match safeLoadSuite buffer with
  | Some suite => mret suite
  | None => throw (YAMLException suiteId)
  end.

(** Modelled from the spec: [loadCandidate] of the absent [./loaders]; it
    reads the blob of the candidate from storage and decodes it. *)
Definition loadCandidate (candidateId : string)
    : M World CandidateDescription.t :=
  emit (LoadCandidate candidateId);;
  buffer ← readCloudBlob (candidateBlob candidateId);
  match safeLoadCandidate buffer with
  | Some candidate => mret candidate
  | None => throw (YAMLException candidateId)
  end.

Definition createWorker (host image : string) (vols : list Volume)
    (env : list (string * string)) (lg : BlobLogger) : M World unit :=
  emit (CreateWorker
          {| hostname := host; imageId := image; volumes := vols;
             environment := env; logger := lg |}).

Definition createBenchmark (d : BenchmarkDescription.t) : M World string :=
  let encoded := encodeBenchmark (BenchmarkDescription.image d) in
  let buffer := safeDump (ABenchmark d) in
  writeCloudBlob encoded buffer false;;
  log ("Uploaded benchmark schema to " +:+ encoded);;
  mret encoded.

Definition createCandidate (d : CandidateDescription.t) : M World string :=
  let encoded := encodeCandidate (CandidateDescription.image d) in
  let buffer := safeDump (ACandidate d) in
  writeCloudBlob encoded buffer false;;
  log ("Uploaded candidate schema to " +:+ encoded);;
  mret encoded.

Definition createSuite (d : SuiteDescription.t) : M World string :=
  let encoded := encodeSuite (name (SuiteDescription.entity d)) in
  let buffer := safeDump (ASuite d) in
  writeCloudBlob encoded buffer false;;
  log ("Uploaded suite schema to " +:+ encoded);;
  mret encoded.

Definition unsupportedKind (kind : string) : string :=
  "Laboratory.create(): unsupported kind===" +:+ dquote +:+ kind +:+ dquote.

Definition create (d : AnyDescription) : M World string :=
  match d with
  | ABenchmark b => createBenchmark b
  | ACandidate c => createCandidate c
  | ASuite s => createSuite s
  | AOther kind _ =>
      let message := unsupportedKind kind in
      log message;;
      throw (TypeError message)
  end.

Definition mismatch : string :=
  "Suite and Candidate benchmarks don't match.".

Definition run (lab : Laboratory) (candidateId suiteId : string)
    : M World unit :=
  log ("run(" +:+ candidateId +:+ ", " +:+ suiteId +:+ ")");;
  suiteData ←
    tryCatch (loadSuite suiteId)
      (fun _ => throw (TypeError ("Cannot find suite " +:+ suiteId)));
  candidateData ←
    tryCatch (loadCandidate candidateId)
      (fun _ => throw (TypeError ("Cannot find candidate " +:+ candidateId)));
  (if bool_decide (SuiteDescription.benchmarkId suiteData
                   = CandidateDescription.benchmarkId candidateData)
   then mret tt
   else log mismatch;; throw (TypeError mismatch));;
  runId ← createRunId;
  (* Decrypt candidate manifest secrets *)
  decrypted ← liftR (decryptSecrets candidateData (privateKey (keys lab)));
  let yamlText := safeDump (ACandidate decrypted) in
  secrets ← liftR (RamDisk.writeBlob "spec.yaml" yamlText true ∅);
  let volume := {| mount := "/secrets"; storage := secrets |} in
  (* Start the candidate container. *)
  let candidateHost := "c" +:+ runId in
  log ("Starting candidate " +:+ candidateId +:+ " on " +:+ candidateHost);;
  createWorker candidateHost candidateId [volume] []
    {| loggerHost := candidateHost; loggerBlob := encodeLog candidateHost |};;
  (* Start the benchmark container. *)
  let benchmarkHost := "b" +:+ runId in
  log ("Starting benchmark " +:+ SuiteDescription.benchmarkId suiteData
       +:+ " on " +:+ benchmarkHost);;
  createWorker benchmarkHost (SuiteDescription.benchmarkId suiteData) []
    [("candidate", candidateId);
     ("host", candidateHost);
     ("run", "r" +:+ runId);
     ("suite", suiteId)]
    {| loggerHost := benchmarkHost; loggerBlob := encodeLog benchmarkHost |}.
End Laboratory.

(* ===================================================================== *)
(** ** The Repository service *)
(* ===================================================================== *)

(** A column specification [{ name, type }]. *)
Record ColumnDescription : Type := {
  columnName : string;
  columnType : string
}.

Record Table : Type := {
  columns : list ColumnDescription;
  rows : list (list string)
}.

(** The local relational store of [../cloud] ([IDatabase],
    [LocalDatabase]) is not in the sources; a database is the finite map
    from table names to tables. *)
Module LocalDatabase.
(** Modelled from the spec: [ensureTable(name, columnSpecs)] of the absent
    database; it is idempotent. *)
Definition ensureTable (table : string) (cols : list ColumnDescription)
    (db : gmap string Table) : gmap string Table :=
  match db !! table with
  | Some _ => db
  | None => <[table := {| columns := cols; rows := [] |}]> db
  end.

(** Modelled from the spec: [insert(name, values)] of the absent
    database; it adds the row to the table. *)
Definition insert (table : string) (row : list string)
    (db : gmap string Table) : Result (gmap string Table) :=
  match db !! table with
  | Some t =>
      Ok (<[table := {| columns := columns t; rows := rows t ++ [row] |}]> db)
  | None => Throw (DatabaseError table)
  end.

(** Modelled from the spec: [select(name)] of the absent database; it
    fails if the table does not exist. *)
Definition select (table : string) (db : gmap string Table)
    : Result (list (list string)) :=
  match db !! table with
  | Some t => Ok (rows t)
  | None => Throw (DatabaseError table)
  end.

(** Modelled from the spec: [getColumns(name)] of the absent database. *)
Definition getColumns (table : string) (db : gmap string Table)
    : Result (list ColumnDescription) :=
  match db !! table with
  | Some t => Ok (columns t)
  | None => Throw (DatabaseError table)
  end.
End LocalDatabase.

(** An [async] call that was made without [await]: what is left of
    [crawlBlobs] once it has suspended on [listBlobs()], the loop over the
    blobs that were listed. *)
Inductive Task : Type :=
| CrawlTask (blobs : list string).

Record Repository : Type := {
  database : gmap string Table;
  benchmarkCache : gmap string BenchmarkDescription.t;
  (* world.cloudStorage *)
  repositoryStorage : gmap string string;
  console : list string;
  pending : list Task
}.

Record SelectResults : Type := {
  resultColumns : list ColumnDescription;
  resultRows : list (list string)
}.

(** [new Repository(world)] *)
Definition newRepository (cloud : gmap string string) : Repository :=
  {| database := ∅;
     benchmarkCache := ∅;
     repositoryStorage := cloud;
     console := [];
     pending := [] |}.

Definition consoleLog (message : string) : M Repository unit :=
  fun r =>
    (Ok tt,
     {| database := database r;
        benchmarkCache := benchmarkCache r;
        repositoryStorage := repositoryStorage r;
        console := console r ++ [message];
        pending := pending r |}).

Definition setDatabase (db : gmap string Table) (r : Repository) : Repository :=
  {| database := db;
     benchmarkCache := benchmarkCache r;
     repositoryStorage := repositoryStorage r;
     console := console r;
     pending := pending r |}.

Definition cacheBenchmark (blob : string) (b : BenchmarkDescription.t)
    : M Repository unit :=
  fun r =>
    (Ok tt,
     {| database := database r;
        benchmarkCache := <[blob := b]> (benchmarkCache r);
        repositoryStorage := repositoryStorage r;
        console := console r;
        pending := pending r |}).

Definition spawn (t : Task) : M Repository unit :=
  fun r =>
    (Ok tt,
     {| database := database r;
        benchmarkCache := benchmarkCache r;
        repositoryStorage := repositoryStorage r;
        console := console r;
        pending := pending r ++ [t] |}).

(** [await this.database.ensureTable(...)] *)
Definition ensureTable (table : string) (cols : list ColumnDescription)
    : M Repository unit :=
  fun r =>
    (Ok tt, setDatabase (LocalDatabase.ensureTable table cols (database r)) r).

(** [await this.database.insert(...)] *)
Definition insertRow (table : string) (row : list string) : M Repository unit :=
  fun r =>
    match LocalDatabase.insert table row (database r) with
    | Ok db => (Ok tt, setDatabase db r)
    | Throw e => (Throw e, r)
    end.

(** [await cloudStorage.listBlobs()] *)
Definition listBlobs : M Repository (list string) :=
  fun r => (Ok (RamDisk.listBlobs (repositoryStorage r)), r).

Definition benchmarkTableName : string := "benchmarks".

Definition benchmarkColumns : list ColumnDescription :=
  [ {| columnName := "image"; columnType := "string" |};
    {| columnName := "name"; columnType := "string" |};
    {| columnName := "owner"; columnType := "string" |};
    {| columnName := "created"; columnType := "string" |} ].

Definition benchmarkRow (b : BenchmarkDescription.t) : list string :=
  [ BenchmarkDescription.image b;
    name (BenchmarkDescription.entity b);
    owner (BenchmarkDescription.entity b);
    created (BenchmarkDescription.entity b) ].

Section Repository.
Context `{Naming} `{Yaml}.

Definition select (from : string) : M Repository SelectResults :=
  fun r =>
    match LocalDatabase.getColumns from (database r) with
    | Throw e => (Throw e, r)
    | Ok cols =>
        match LocalDatabase.select from (database r) with
        | Throw e => (Throw e, r)
        | Ok rs => (Ok {| resultColumns := cols; resultRows := rs |}, r)
        end
    end.

(** Modelled from the spec: [loadBenchmark(blob, cloudStorage, false)] of
    the absent [./loaders]; it reads the listed blob from storage and
    decodes it. *)
Definition loadBenchmark (blob : string) : M Repository BenchmarkDescription.t :=
  fun r =>
    match RamDisk.readBlob blob (repositoryStorage r) with
    | Throw e => (Throw e, r)
    | Ok buffer =>
        match safeLoadBenchmark buffer with
        | Some b => (Ok b, r)
        | None => (Throw (YAMLException blob), r)
        end
    end.

Definition getBenchmark (blob : string) : M Repository BenchmarkDescription.t :=
  fun r =>
    match benchmarkCache r !! blob with
    | Some benchmark => (Ok benchmark, r)
    | None =>
        (benchmark ← loadBenchmark blob;
         cacheBenchmark blob benchmark;;
         mret benchmark) r
    end.

Definition processBenchmark (blob : string) : M Repository unit :=
  consoleLog ("repository: processBenchmark " +:+ blob);;
  benchmark ← getBenchmark blob;
  (* Ensure benchmarks table. *)
  ensureTable benchmarkTableName benchmarkColumns;;
  (* Add to benchmarks table. *)
  insertRow benchmarkTableName (benchmarkRow benchmark).

(** The three handlers below have empty bodies in the source. *)
Definition processRun (name : string) : M Repository unit := mret tt.

Definition processSuite (name : string) : M Repository unit := mret tt.

Definition processCandidate (name : string) : M Repository unit := mret tt.

Definition processBlob (blob : string) : M Repository unit :=
  let collection := getCollection blob in
  if String.eqb collection "benchmarks" then processBenchmark blob
  else if String.eqb collection "candidates" then processCandidate blob
  else if String.eqb collection "suites" then processSuite blob
  else if String.eqb collection "runs" then processRun blob
  else
    (* This blob is not a member of a collection.  Skip it. *)
    mret tt.

(** [for (const blob of blobs) { ... }] *)
Fixpoint crawlLoop (blobs : list string) : M Repository unit :=
  match blobs with
  | [] => mret tt
  | blob :: rest => processBlob blob;; crawlLoop rest
  end.

(** [crawlBlobs] as a caller that awaited it would see it. *)
Definition crawlBlobs : M Repository unit :=
  consoleLog "repository: beginning crawl";;
  blobs ← listBlobs;
  crawlLoop blobs.

(** [initialize] calls [this.crawlBlobs()] and does not await it: the
    call runs up to its first [await], on [listBlobs()], and what is
    left is pending when [initialize] returns. *)
Definition initialize : M Repository unit :=
  consoleLog "repository: beginning crawl";;
  blobs ← listBlobs;
  spawn (CrawlTask blobs).

(** A pending task runs to its end; a rejection of its promise is
    handled by nobody. *)
Definition runTask (t : Task) (r : Repository) : Repository :=
  match t with
  | CrawlTask blobs => (crawlLoop blobs r).2
  end.

(** The event loop runs every pending task. *)
Definition settle (r : Repository) : Repository :=
  foldl (fun r t => runTask t r)
    {| database := database r;
       benchmarkCache := benchmarkCache r;
       repositoryStorage := repositoryStorage r;
       console := console r;
       pending := [] |}
    (pending r).
End Repository.

(** The rows of a table, none if the table does not exist. *)
Definition tableRows (table : string) (db : gmap string Table)
    : list (list string) :=
  match db !! table with
  | Some t => rows t
  | None => []
  end.

(* ===================================================================== *)
(** ** A concrete instance of the collaborators *)
(* ===================================================================== *)

(** Small executable stand-ins for naming, YAML and secrets, on which the
    statements below are run at concrete inputs. *)
Module Sample.
Definition newline : Ascii.ascii := Ascii.ascii_of_nat 10.
Definition slash : Ascii.ascii := Ascii.ascii_of_nat 47.

Fixpoint splitOn (sep : Ascii.ascii) (s : string) : list string :=
  match s with
  | EmptyString => [EmptyString]
  | String c rest =>
      if Ascii.eqb c sep then EmptyString :: splitOn sep rest
      else
        match splitOn sep rest with
        | [] => [String c EmptyString]
        | w :: ws => String c w :: ws
        end
  end.

Fixpoint stripPrefix (p s : string) : option string :=
  match p, s with
  | EmptyString, _ => Some s
  | String a p', String b s' =>
      if Ascii.eqb a b then stripPrefix p' s' else None
  | String _ _, EmptyString => None
  end.

Fixpoint unary (n : nat) : string :=
  match n with
  | O => "0"
  | S k => "1" +:+ unary k
  end.

(** The collection of a key is what precedes its first slash. *)
Definition collectionOf (key : string) : string :=
  match splitOn slash key with
  | c :: _ :: _ => c
  | _ => EmptyString
  end.

#[export] Instance naming : Naming := {|
  encodeBenchmark := fun s => "benchmarks/" +:+ s;
  encodeCandidate := fun s => "candidates/" +:+ s;
  encodeSuite := fun s => "suites/" +:+ s;
  encodeLog := fun s => "logs/" +:+ s;
  getCollection := collectionOf;
  freshRunId := unary
|}.

(** The loaders encode the id they are given. *)
#[export] Instance loaders : Loaders := {|
  suiteBlob := fun s => "suites/" +:+ s;
  candidateBlob := fun s => "candidates/" +:+ s
|}.

Definition entityLines (e : EntityDescription) : list string :=
  [name e; description e; owner e; created e].

Fixpoint flatten (l : list (string * string)) : list string :=
  match l with
  | [] => []
  | (k, v) :: rest => k :: v :: flatten rest
  end.

Fixpoint pairUp (l : list string) : option (list (string * string)) :=
  match l with
  | [] => Some []
  | k :: v :: rest =>
      match pairUp rest with
      | Some ps => Some ((k, v) :: ps)
      | None => None
      end
  | _ => None
  end.

Fixpoint breakAt (sep : string) (l : list string)
    : option (list string * list string) :=
  match l with
  | [] => None
  | x :: rest =>
      if String.eqb x sep then Some ([], rest)
      else
        match breakAt sep rest with
        | Some (before, after) => Some (x :: before, after)
        | None => None
        end
  end.

Definition dumpLines (d : AnyDescription) : list string :=
  match d with
  | ABenchmark b =>
      "kind: benchmark" :: entityLines (BenchmarkDescription.entity b)
        ++ [BenchmarkDescription.image b]
  | ACandidate c =>
      "kind: candidate" :: entityLines (CandidateDescription.entity c)
        ++ [CandidateDescription.benchmarkId c; CandidateDescription.image c]
        ++ flatten (CandidateDescription.secrets c)
  | ASuite s =>
      "kind: suite" :: entityLines (SuiteDescription.entity s)
        ++ [SuiteDescription.benchmarkId s]
        ++ SuiteDescription.domainData s ++ ["--"]
        ++ SuiteDescription.testData s
  | AOther kind e => ("kind: " +:+ kind) :: entityLines e
  end.

Definition dump (d : AnyDescription) : string :=
  String.concat (String newline EmptyString) (dumpLines d).

Definition parseBenchmark (text : string) : option BenchmarkDescription.t :=
  match splitOn newline text with
  | [k; n; d; o; c; img] =>
      if String.eqb k "kind: benchmark" then
        Some {| BenchmarkDescription.entity :=
                  {| name := n; description := d; owner := o; created := c |};
                BenchmarkDescription.image := img |}
      else None
  | _ => None
  end.

Definition parseCandidate (text : string) : option CandidateDescription.t :=
  match splitOn newline text with
  | k :: n :: d :: o :: c :: b :: img :: rest =>
      if String.eqb k "kind: candidate" then
        match pairUp rest with
        | Some ps =>
            Some {| CandidateDescription.entity :=
                      {| name := n; description := d; owner := o;
                         created := c |};
                    CandidateDescription.benchmarkId := b;
                    CandidateDescription.image := img;
                    CandidateDescription.secrets := ps |}
        | None => None
        end
      else None
  | _ => None
  end.

Definition parseSuite (text : string) : option SuiteDescription.t :=
  match splitOn newline text with
  | k :: n :: d :: o :: c :: b :: rest =>
      if String.eqb k "kind: suite" then
        match breakAt "--" rest with
        | Some (domain, test) =>
            Some {| SuiteDescription.entity :=
                      {| name := n; description := d; owner := o;
                         created := c |};
                    SuiteDescription.benchmarkId := b;
                    SuiteDescription.domainData := domain;
                    SuiteDescription.testData := test |}
        | None => None
        end
      else None
  | _ => None
  end.

#[export] Instance yaml : Yaml := {|
  safeDump := dump;
  safeLoadBenchmark := parseBenchmark;
  safeLoadCandidate := parseCandidate;
  safeLoadSuite := parseSuite
|}.

(** A toy cipher: the ciphertext of [p] under key [k] is [k:p]. *)
Fixpoint decryptFields (key : string) (l : list (string * string))
    : Result (list (string * string)) :=
  match l with
  | [] => Ok []
  | (field, cipher) :: rest =>
      match stripPrefix (key +:+ ":") cipher with
      | None => Throw (SecretsError field)
      | Some plain =>
          match decryptFields key rest with
          | Ok ps => Ok ((field, plain) :: ps)
          | Throw e => Throw e
          end
      end
  end.

#[export] Instance secrets : Secrets := {|
  decryptSecrets := fun c key =>
    match decryptFields key (CandidateDescription.secrets c) with
    | Ok ps =>
        Ok {| CandidateDescription.entity := CandidateDescription.entity c;
              CandidateDescription.benchmarkId :=
                CandidateDescription.benchmarkId c;
              CandidateDescription.image := CandidateDescription.image c;
              CandidateDescription.secrets := ps |}
    | Throw e => Throw e
    end
|}.

Definition lab : Laboratory :=
  {| keys := {| publicKey := "k1"; privateKey := "k1" |} |}.

Definition B1 : BenchmarkDescription.t :=
  {| BenchmarkDescription.entity :=
       {| name := "True_Or_False"; description := "boolean expressions";
          owner := "Mike"; created := "2019-06-01" |};
     BenchmarkDescription.image := "img/true-false:1.0" |}.

Definition S1 : SuiteDescription.t :=
  {| SuiteDescription.entity :=
       {| name := "S1"; description := "a suite";
          owner := "Mike"; created := "2019-06-02" |};
     SuiteDescription.benchmarkId := "img/true-false:1.0";
     SuiteDescription.domainData := ["d1"];
     SuiteDescription.testData := ["t1"; "t2"] |}.

Definition C1 : CandidateDescription.t :=
  {| CandidateDescription.entity :=
       {| name := "C1"; description := "a candidate";
          owner := "Noel"; created := "2019-06-03" |};
     CandidateDescription.benchmarkId := "img/true-false:1.0";
     CandidateDescription.image := "img/parser:1.0";
     CandidateDescription.secrets := [("password", "k1:hunter2")] |}.

(** [C1] once its secret is decrypted. *)
Definition C1plain : CandidateDescription.t :=
  {| CandidateDescription.entity := CandidateDescription.entity C1;
     CandidateDescription.benchmarkId := CandidateDescription.benchmarkId C1;
     CandidateDescription.image := CandidateDescription.image C1;
     CandidateDescription.secrets := [("password", "hunter2")] |}.

(** A suite for another benchmark. *)
Definition S2 : SuiteDescription.t :=
  {| SuiteDescription.entity :=
       {| name := "S2"; description := "another suite";
          owner := "Mike"; created := "2019-06-04" |};
     SuiteDescription.benchmarkId := "img/other:1.0";
     SuiteDescription.domainData := [];
     SuiteDescription.testData := [] |}.

(** A suite submitted under the name of [S1]. *)
Definition S2' : SuiteDescription.t :=
  {| SuiteDescription.entity :=
       {| name := "S1"; description := "S1 again";
          owner := "Noel"; created := "2019-06-05" |};
     SuiteDescription.benchmarkId := "img/other:1.0";
     SuiteDescription.domainData := [];
     SuiteDescription.testData := [] |}.

(** A candidate whose secret is not a ciphertext for the key of [lab]. *)
Definition C2 : CandidateDescription.t :=
  {| CandidateDescription.entity := CandidateDescription.entity C1;
     CandidateDescription.benchmarkId := CandidateDescription.benchmarkId C1;
     CandidateDescription.image := "img/broken:1.0";
     CandidateDescription.secrets := [("password", "k2:hunter2")] |}.

Definition emptyWorld : World :=
  {| cloudStorage := ∅; events := []; runsCreated := 0 |}.

(** The world after [B1], [S1], [S2], [C1] and [C2] were submitted. *)
Definition submitted : World :=
  snd ((create (ABenchmark B1);;
        create (ASuite S1);;
        create (ASuite S2);;
        create (ACandidate C1);;
        create (ACandidate C2)) emptyWorld).

(** A cloud storage holding one benchmark, one run and one log. *)
Definition cloud1 : gmap string string :=
  <["benchmarks/img/true-false:1.0" := dump (ABenchmark B1)]>
    (<["runs/r1" := "run one"]> (<["logs/c1" := "hello"]> ∅)).
End Sample.

(* ===================================================================== *)
(** ** The requests a run is expected to issue *)
(* ===================================================================== *)

Section Expected.
Context `{Naming} `{Yaml}.

(** The storage key [create] writes a description under. *)
Definition storageKey (d : AnyDescription) : option string :=
  match d with
  | ABenchmark b => Some (encodeBenchmark (BenchmarkDescription.image b))
  | ACandidate c => Some (encodeCandidate (CandidateDescription.image c))
  | ASuite s => Some (encodeSuite (name (SuiteDescription.entity s)))
  | AOther _ _ => None
  end.

(** The volume of a run: a disk holding the plaintext manifest only. *)
Definition secretsVolume (plain : CandidateDescription.t) : Volume :=
  {| mount := "/secrets";
     storage := {[ "spec.yaml" := safeDump (ACandidate plain) ]} |}.

Definition candidateWorker (candidateId runId : string)
    (plain : CandidateDescription.t) : WorkerRequest :=
  {| hostname := "c" +:+ runId;
     imageId := candidateId;
     volumes := [secretsVolume plain];
     environment := [];
     logger := {| loggerHost := "c" +:+ runId;
                  loggerBlob := encodeLog ("c" +:+ runId) |} |}.

Definition benchmarkWorker (candidateId suiteId benchmarkId runId : string)
    : WorkerRequest :=
  {| hostname := "b" +:+ runId;
     imageId := benchmarkId;
     volumes := [];
     environment :=
       [("candidate", candidateId);
        ("host", "c" +:+ runId);
        ("run", "r" +:+ runId);
        ("suite", suiteId)];
     logger := {| loggerHost := "b" +:+ runId;
                  loggerBlob := encodeLog ("b" +:+ runId) |} |}.

Definition runMessage (candidateId suiteId : string) : string :=
  "run(" +:+ candidateId +:+ ", " +:+ suiteId +:+ ")".

(** The benchmark a stored blob decodes to. *)
Definition storedBenchmark (cloud : gmap string string) (blob : string)
    : option BenchmarkDescription.t :=
  match cloud !! blob with
  | Some buffer => safeLoadBenchmark buffer
  | None => None
  end.

(** The listed blobs that belong to the benchmarks collection. *)
Definition benchmarkBlobs (blobs : list string) : list string :=
  List.filter (fun blob => String.eqb (getCollection blob) "benchmarks") blobs.

(** One row per listed benchmark blob that decodes. *)
Definition benchmarkRows (cloud : gmap string string) (blobs : list string)
    : list (list string) :=
  omap (fun blob => benchmarkRow <$> storedBenchmark cloud blob)
    (benchmarkBlobs blobs).

(** Every benchmark blob of the storage decodes. *)
Definition benchmarksDecode (cloud : gmap string string) : Prop :=
  forall blob,
    blob ∈ RamDisk.listBlobs cloud ->
    getCollection blob = "benchmarks" ->
    is_Some (storedBenchmark cloud blob).

(** The same, as a check that runs. *)
Definition benchmarksDecodeb (cloud : gmap string string) : bool :=
  forallb
    (fun blob =>
       if String.eqb (getCollection blob) "benchmarks"
       then match storedBenchmark cloud blob with
            | Some _ => true
            | None => false
            end
       else true)
    (RamDisk.listBlobs cloud).

(** The cache holds nothing but what the storage decodes to. *)
Definition cacheAgrees (r : Repository) : Prop :=
  forall blob b,
    benchmarkCache r !! blob = Some b ->
    storedBenchmark (repositoryStorage r) blob = Some b.
End Expected.

(* ===================================================================== *)
(** ** What the stores hold, and repeated crawls *)
(* ===================================================================== *)

Section Observations.
Context `{Naming} `{Yaml} `{Loaders}.

(** The line a handler of [create] logs once the blob is written. *)
Definition uploadMessage (k : Kind) (key : string) : string :=
  "Uploaded " +:+ kindText k +:+ " schema to " +:+ key.

(** The suite [loadSuite] finds for an id, if the blob is there and
    decodes. *)
Definition storedSuite (cloud : gmap string string) (suiteId : string)
    : option SuiteDescription.t :=
  match cloud !! suiteBlob suiteId with
  | Some buffer => safeLoadSuite buffer
  | None => None
  end.

(** The candidate [loadCandidate] finds for an id. *)
Definition storedCandidate (cloud : gmap string string) (candidateId : string)
    : option CandidateDescription.t :=
  match cloud !! candidateBlob candidateId with
  | Some buffer => safeLoadCandidate buffer
  | None => None
  end.

(** Did both descriptions load, with the same benchmark id?  This is the
    point past which [run] draws a run id. *)
Definition validated (cloud : gmap string string)
    (candidateId suiteId : string) : bool :=
  match storedSuite cloud suiteId, storedCandidate cloud candidateId with
  | Some suite, Some candidate =>
      bool_decide (SuiteDescription.benchmarkId suite
                   = CandidateDescription.benchmarkId candidate)
  | _, _ => false
  end.

(** Every benchmark blob of a listing decodes, as a check that runs. *)
Definition decodesAll (cloud : gmap string string) (blobs : list string)
    : bool :=
  forallb
    (fun blob =>
       if String.eqb (getCollection blob) "benchmarks"
       then match storedBenchmark cloud blob with
            | Some _ => true
            | None => false
            end
       else true)
    blobs.

(** No blob of a listing belongs to the benchmarks collection. *)
Definition noBenchmark (blobs : list string) : bool :=
  forallb (fun blob => negb (String.eqb (getCollection blob) "benchmarks"))
    blobs.

(** The cloud storage changes under a running Repository: the Laboratory
    writes to it. *)
Definition withStorage (cloud : gmap string string) (r : Repository)
    : Repository :=
  {| database := database r;
     benchmarkCache := benchmarkCache r;
     repositoryStorage := cloud;
     console := console r;
     pending := pending r |}.

(** [n] calls of [initialize], each left to run to its end. *)
Fixpoint crawls (n : nat) (r : Repository) : Repository :=
  match n with
  | O => r
  | S k => settle (initialize (crawls k r)).2
  end.

(** The only table is [benchmarks], with its fixed columns and one field
    per column in every row. *)
Definition wellFormed (db : gmap string Table) : Prop :=
  forall table t,
    db !! table = Some t ->
    table = benchmarkTableName /\
    columns t = benchmarkColumns /\
    Forall (fun row => length row = length benchmarkColumns) (rows t).
End Observations.

(** More concrete worlds and storages, built on [Sample]. *)
Module Fixture.
Import Sample.

(** [Sample.submitted] with a suite blob that does not decode. *)
Definition garbled : World :=
  {| cloudStorage := <["suites/bad" := "not a suite"]> (cloudStorage submitted);
     events := events submitted;
     runsCreated := runsCreated submitted |}.

(** [Sample.submitted] without the blob of its benchmark. *)
Definition trimmed : World :=
  {| cloudStorage := delete "benchmarks/img/true-false:1.0"
                       (cloudStorage submitted);
     events := [];
     runsCreated := runsCreated submitted |}.

Definition B2 : BenchmarkDescription.t :=
  {| BenchmarkDescription.entity :=
       {| name := "Other"; description := "another benchmark";
          owner := "Noel"; created := "2019-06-06" |};
     BenchmarkDescription.image := "img/other:1.0" |}.

(** [Sample.cloud1] with a benchmark blob that does not decode. *)
Definition cloud2 : gmap string string :=
  <["benchmarks/bad" := "not a benchmark"]> cloud1.

(** [Sample.cloud1] with a second benchmark. *)
Definition cloud3 : gmap string string :=
  <["benchmarks/img/other:1.0" := dump (ABenchmark B2)]> cloud1.
End Fixture.

(* ===================================================================== *)
(** ** Laboratory: facts *)
(* ===================================================================== *)

Ltac unfold_lab :=
  unfold run, create, createBenchmark, createCandidate, createSuite,
    loadSuite, loadCandidate, createWorker, createRunId, tryCatch, log, emit,
    writeCloudBlob, readCloudBlob, liftR, throw, mbind, mret, M_bind, M_ret,
    RamDisk.readBlob, RamDisk.writeBlob.

Lemma workerRequests_app (es es' : list Event) :
  workerRequests (es ++ es') = workerRequests es ++ workerRequests es'.
Proof. unfold workerRequests. apply omap_app. Qed.

Lemma candidateLoads_app (es es' : list Event) :
  candidateLoads (es ++ es') = candidateLoads es ++ candidateLoads es'.
Proof. unfold candidateLoads. apply omap_app. Qed.

Lemma logged_app (es es' : list Event) :
  logged (es ++ es') = logged es ++ logged es'.
Proof. unfold logged. apply omap_app. Qed.

Ltac project_events :=
  repeat (rewrite ?workerRequests_app, ?candidateLoads_app, ?logged_app;
          cbn [workerRequests candidateLoads logged omap list_omap]);
  rewrite ?app_nil_r, <- ?app_assoc; cbn [app].

Section LaboratoryFacts.
Context `{Naming} `{Yaml} `{Loaders} `{Secrets}.

(** What [run] does when the suite blob is absent. *)
Lemma run_suite_absent lab candidateId suiteId (w : World) :
  cloudStorage w !! suiteBlob suiteId = None ->
  run lab candidateId suiteId w =
    (Throw (TypeError ("Cannot find suite " +:+ suiteId)),
     {| cloudStorage := cloudStorage w;
        events := (events w ++ [Log (runMessage candidateId suiteId)])
                  ++ [LoadSuite suiteId];
        runsCreated := runsCreated w |}).
Proof.
  intros Habsent. unfold_lab. simpl. rewrite Habsent. reflexivity.
Qed.

(** [run] up to the comparison of the two benchmark ids, when both
    descriptions load. *)
Lemma run_loaded lab candidateId suiteId (w : World) bs bc suite candidate :
  cloudStorage w !! suiteBlob suiteId = Some bs ->
  safeLoadSuite bs = Some suite ->
  cloudStorage w !! candidateBlob candidateId = Some bc ->
  safeLoadCandidate bc = Some candidate ->
  run lab candidateId suiteId w =
    let loaded :=
      {| cloudStorage := cloudStorage w;
         events := ((events w ++ [Log (runMessage candidateId suiteId)])
                    ++ [LoadSuite suiteId]) ++ [LoadCandidate candidateId];
         runsCreated := runsCreated w |} in
    if bool_decide (SuiteDescription.benchmarkId suite
                    = CandidateDescription.benchmarkId candidate)
    then
      match decryptSecrets candidate (privateKey (keys lab)) with
      | Throw e =>
          (Throw e,
           {| cloudStorage := cloudStorage w;
              events := events loaded;
              runsCreated := S (runsCreated w) |})
      | Ok plain =>
          let runId := freshRunId (runsCreated w) in
          (Ok tt,
           {| cloudStorage := cloudStorage w;
              events :=
                (((events loaded
                   ++ [Log ("Starting candidate " +:+ candidateId
                            +:+ " on " +:+ "c" +:+ runId)])
                  ++ [CreateWorker (candidateWorker candidateId runId plain)])
                 ++ [Log ("Starting benchmark "
                          +:+ SuiteDescription.benchmarkId suite
                          +:+ " on " +:+ "b" +:+ runId)])
                ++ [CreateWorker
                      (benchmarkWorker candidateId suiteId
                         (SuiteDescription.benchmarkId suite) runId)];
              runsCreated := S (runsCreated w) |})
      end
    else
      (Throw (TypeError mismatch),
       {| cloudStorage := cloudStorage w;
          events := events loaded ++ [Log mismatch];
          runsCreated := runsCreated w |}).
Proof.
  intros Hs Hps Hc Hpc. unfold_lab. simpl.
  rewrite Hs, Hps. simpl. rewrite Hc, Hpc. simpl.
  case_bool_decide; simpl; [| reflexivity].
  destruct (decryptSecrets candidate (privateKey (keys lab))); reflexivity.
Qed.

(** C1: when the blobs the loaders read for [suiteId] and [candidateId]
    are the dumps of a suite S1 and of a candidate C1 that both reference
    the benchmark [benchmarkId], [run(candidateId, suiteId)] succeeds and
    issues exactly two [createWorker] calls: the first for the image
    [candidateId], on host ['c' + runId], with one volume mounted at
    [/secrets] whose only blob is [spec.yaml], the dump of the decrypted
    candidate; the second for the image [benchmarkId], on host
    ['b' + runId], without volume, with the environment candidate, host,
    run, suite. *)
Theorem run_issues_two_workers lab candidateId suiteId benchmarkId
    (S1 : SuiteDescription.t) (C1 plain : CandidateDescription.t)
    (w : World) :
  let runId := freshRunId (runsCreated w) in
  cloudStorage w !! suiteBlob suiteId = Some (safeDump (ASuite S1)) ->
  safeLoadSuite (safeDump (ASuite S1)) = Some S1 ->
  cloudStorage w !! candidateBlob candidateId
    = Some (safeDump (ACandidate C1)) ->
  safeLoadCandidate (safeDump (ACandidate C1)) = Some C1 ->
  SuiteDescription.benchmarkId S1 = benchmarkId ->
  CandidateDescription.benchmarkId C1 = benchmarkId ->
  decryptSecrets C1 (privateKey (keys lab)) = Ok plain ->
  (run lab candidateId suiteId w).1 = Ok tt /\
  workerRequests (events (run lab candidateId suiteId w).2) =
    workerRequests (events w)
    ++ [candidateWorker candidateId runId plain;
        benchmarkWorker candidateId suiteId benchmarkId runId].
Proof.
  intros runId Hs Hps Hc Hpc Hsb Hcb Hdec.
  rewrite (run_loaded lab candidateId suiteId w _ _ S1 C1 Hs Hps Hc Hpc).
  cbv zeta. rewrite Hsb, Hcb, bool_decide_eq_true_2 by reflexivity.
  rewrite Hdec. split; [reflexivity |].
  cbn [snd events]. project_events. reflexivity.
Qed.

(** C2: when the stored suite and the stored candidate carry different
    benchmark ids, [run] throws the benchmark-mismatch error, the message
    is the last thing logged, and no [createWorker] call is issued. *)
Theorem run_benchmark_mismatch lab candidateId suiteId (w : World)
    bs bc suite candidate :
  cloudStorage w !! suiteBlob suiteId = Some bs ->
  safeLoadSuite bs = Some suite ->
  cloudStorage w !! candidateBlob candidateId = Some bc ->
  safeLoadCandidate bc = Some candidate ->
  SuiteDescription.benchmarkId suite
    <> CandidateDescription.benchmarkId candidate ->
  (run lab candidateId suiteId w).1 = Throw (TypeError mismatch) /\
  logged (events (run lab candidateId suiteId w).2) =
    logged (events w) ++ [runMessage candidateId suiteId; mismatch] /\
  workerRequests (events (run lab candidateId suiteId w).2) =
    workerRequests (events w).
Proof.
  intros Hs Hps Hc Hpc Hne.
  rewrite (run_loaded lab candidateId suiteId w _ _ _ _ Hs Hps Hc Hpc).
  cbv zeta. rewrite bool_decide_eq_false_2 by exact Hne.
  cbn [fst snd events]. project_events. auto.
Qed.

(** C6: when the two descriptions load and agree on the benchmark but
    [decryptSecrets] throws, [run] throws that same error and no
    [createWorker] call is issued. *)
Theorem run_decryption_failure lab candidateId suiteId (w : World)
    bs bc suite candidate e :
  cloudStorage w !! suiteBlob suiteId = Some bs ->
  safeLoadSuite bs = Some suite ->
  cloudStorage w !! candidateBlob candidateId = Some bc ->
  safeLoadCandidate bc = Some candidate ->
  SuiteDescription.benchmarkId suite
    = CandidateDescription.benchmarkId candidate ->
  decryptSecrets candidate (privateKey (keys lab)) = Throw e ->
  (run lab candidateId suiteId w).1 = Throw e /\
  workerRequests (events (run lab candidateId suiteId w).2) =
    workerRequests (events w).
Proof.
  intros Hs Hps Hc Hpc Heq Hdec.
  rewrite (run_loaded lab candidateId suiteId w _ _ _ _ Hs Hps Hc Hpc).
  cbv zeta. rewrite bool_decide_eq_true_2 by exact Heq.
  rewrite Hdec. cbn [fst snd events]. project_events. auto.
Qed.

(** C7: when the blob of [suiteId] is not in the storage, [run] throws
    "Cannot find suite <suiteId>", it has not tried to load the
    candidate, and no [createWorker] call is issued. *)
Theorem run_suite_not_found lab candidateId suiteId (w : World) :
  cloudStorage w !! suiteBlob suiteId = None ->
  (run lab candidateId suiteId w).1
    = Throw (TypeError ("Cannot find suite " +:+ suiteId)) /\
  candidateLoads (events (run lab candidateId suiteId w).2) =
    candidateLoads (events w) /\
  workerRequests (events (run lab candidateId suiteId w).2) =
    workerRequests (events w).
Proof.
  intros Habsent. rewrite (run_suite_absent lab _ _ _ Habsent).
  cbn [fst snd events]. project_events. auto.
Qed.

(** [run] never writes to the cloud storage, whatever its outcome. *)
Lemma run_cloudStorage lab candidateId suiteId (w : World) :
  cloudStorage (run lab candidateId suiteId w).2 = cloudStorage w.
Proof.
  unfold_lab. simpl.
  destruct (cloudStorage w !! suiteBlob suiteId) as [bs|]; simpl;
    [| reflexivity].
  destruct (safeLoadSuite bs) as [suite|]; simpl; [| reflexivity].
  destruct (cloudStorage w !! candidateBlob candidateId) as [bc|]; simpl;
    [| reflexivity].
  destruct (safeLoadCandidate bc) as [candidate|]; simpl; [| reflexivity].
  case_bool_decide; simpl; [| reflexivity].
  destruct (decryptSecrets candidate (privateKey (keys lab))); reflexivity.
Qed.

(** A run that succeeds loaded both descriptions and decrypted the
    candidate. *)
Lemma run_Ok_inv lab candidateId suiteId (w : World) :
  (run lab candidateId suiteId w).1 = Ok tt ->
  exists bs suite bc candidate plain,
    cloudStorage w !! suiteBlob suiteId = Some bs /\
    safeLoadSuite bs = Some suite /\
    cloudStorage w !! candidateBlob candidateId = Some bc /\
    safeLoadCandidate bc = Some candidate /\
    SuiteDescription.benchmarkId suite
      = CandidateDescription.benchmarkId candidate /\
    decryptSecrets candidate (privateKey (keys lab)) = Ok plain.
Proof.
  destruct (cloudStorage w !! suiteBlob suiteId) as [bs|] eqn:Hs.
  2: { rewrite (run_suite_absent lab _ _ _ Hs). discriminate. }
  destruct (safeLoadSuite bs) as [suite|] eqn:Hps.
  2: { unfold_lab. simpl. rewrite Hs, Hps. discriminate. }
  destruct (cloudStorage w !! candidateBlob candidateId) as [bc|] eqn:Hc.
  2: { unfold_lab. simpl. rewrite Hs, Hps. simpl. rewrite Hc. discriminate. }
  destruct (safeLoadCandidate bc) as [candidate|] eqn:Hpc.
  2: { unfold_lab. simpl. rewrite Hs, Hps. simpl. rewrite Hc, Hpc.
       discriminate. }
  rewrite (run_loaded lab candidateId suiteId w _ _ _ _ Hs Hps Hc Hpc).
  cbv zeta. case_bool_decide as Heq; [| discriminate].
  destruct (decryptSecrets candidate (privateKey (keys lab))) as [plain|]
    eqn:Hdec; [| discriminate].
  intros _. exists bs, suite, bc, candidate, plain. auto 10.
Qed.

(** C10: after a successful [run] the cloud storage is what it was, so
    the candidate blob is still the stored one, the one that was loaded;
    the dump of the decrypted candidate is the single blob [spec.yaml]
    of the volume of the candidate worker, and the benchmark worker has
    no volume. *)
Theorem run_keeps_cloud_storage lab candidateId suiteId (w : World) :
  (run lab candidateId suiteId w).1 = Ok tt ->
  cloudStorage (run lab candidateId suiteId w).2 = cloudStorage w /\
  exists bc candidate plain benchmarkId,
    cloudStorage (run lab candidateId suiteId w).2 !! candidateBlob candidateId
      = Some bc /\
    safeLoadCandidate bc = Some candidate /\
    decryptSecrets candidate (privateKey (keys lab)) = Ok plain /\
    workerRequests (events (run lab candidateId suiteId w).2) =
      workerRequests (events w)
      ++ [candidateWorker candidateId (freshRunId (runsCreated w)) plain;
          benchmarkWorker candidateId suiteId benchmarkId
            (freshRunId (runsCreated w))].
Proof.
  intros Hok. split; [apply run_cloudStorage |].
  destruct (run_Ok_inv _ _ _ _ Hok)
    as (bs & suite & bc & candidate & plain & Hs & Hps & Hc & Hpc & Heq & Hdec).
  exists bc, candidate, plain, (SuiteDescription.benchmarkId suite).
  rewrite run_cloudStorage. repeat split; try assumption.
  rewrite (run_loaded lab candidateId suiteId w _ _ _ _ Hs Hps Hc Hpc).
  cbv zeta. rewrite bool_decide_eq_true_2 by exact Heq.
  rewrite Hdec. cbn [snd events]. project_events. reflexivity.
Qed.

(** C3: [create] of a benchmark, candidate or suite whose storage key
    already holds a blob throws, and leaves the world as it was: the blob
    under the key is the old one. *)
Theorem create_existing_key_fails (d : AnyDescription) key old (w : World) :
  storageKey d = Some key ->
  cloudStorage w !! key = Some old ->
  (create d w).1 = Throw (StorageError key) /\
  (create d w).2 = w /\
  cloudStorage (create d w).2 !! key = Some old.
Proof.
  intros Hkey Hold.
  assert (create d w = (Throw (StorageError key), w)) as ->.
  { destruct d as [b|c|s|tag e]; simpl in Hkey; [| | | discriminate];
      injection Hkey as <-; unfold_lab; simpl; rewrite Hold; reflexivity. }
  auto.
Qed.

(** C8: [create] of a description whose kind is not benchmark, candidate
    or suite throws the "unsupported kind" error, logs its message, and
    leaves the cloud storage as it was. *)
Theorem create_unsupported_kind (d : AnyDescription) (w : World) :
  kindOf d <> BENCHMARK ->
  kindOf d <> CANDIDATE ->
  kindOf d <> SUITE ->
  (create d w).1 = Throw (TypeError (unsupportedKind (kindText (kindOf d)))) /\
  logged (events (create d w).2) =
    logged (events w) ++ [unsupportedKind (kindText (kindOf d))] /\
  cloudStorage (create d w).2 = cloudStorage w.
Proof.
  intros Hb Hc Hs. destruct d as [b|c|s|tag e]; simpl in *; try congruence.
  unfold_lab. cbn [fst snd events cloudStorage]. project_events. auto.
Qed.
End LaboratoryFacts.

(* ===================================================================== *)
(** ** Repository: facts *)
(* ===================================================================== *)

Ltac unfold_repo :=
  unfold processBenchmark, getBenchmark, loadBenchmark, cacheBenchmark,
    ensureTable, insertRow, consoleLog, listBlobs, spawn, setDatabase,
    mbind, mret, M_bind, M_ret, RamDisk.readBlob.

(** Ensuring a table and inserting into it never fails; it adds the row at
    the end of the table and touches no other table. *)
Lemma ensure_then_insert table cols row (db : gmap string Table) :
  exists db',
    LocalDatabase.insert table row (LocalDatabase.ensureTable table cols db)
      = Ok db' /\
    tableRows table db' = tableRows table db ++ [row] /\
    forall other, other <> table -> db' !! other = db !! other.
Proof.
  unfold LocalDatabase.insert, LocalDatabase.ensureTable, tableRows.
  destruct (db !! table) as [t|] eqn:Ht.
  - rewrite Ht. eexists. split; [reflexivity |]. split.
    + rewrite lookup_insert_eq. reflexivity.
    + intros other Hne. rewrite lookup_insert_ne by congruence. reflexivity.
  - rewrite lookup_insert_eq. eexists. split; [reflexivity |]. split.
    + rewrite lookup_insert_eq. reflexivity.
    + intros other Hne. rewrite !lookup_insert_ne by congruence. reflexivity.
Qed.

Lemma tableRows_empty table : tableRows table ∅ = [].
Proof. unfold tableRows. rewrite lookup_empty. reflexivity. Qed.

Section RepositoryFacts.
Context `{Naming} `{Yaml}.

(** The handlers of candidates, suites and runs, and the default case,
    do nothing at all. *)
Lemma processBlob_not_benchmark blob (r : Repository) :
  getCollection blob <> "benchmarks" ->
  processBlob blob r = (Ok tt, r).
Proof.
  intros Hne. unfold processBlob.
  destruct (String.eqb_spec (getCollection blob) "benchmarks") as [Heq|_];
    [contradiction |].
  unfold processCandidate, processSuite, processRun.
  repeat match goal with |- context [if ?c then _ else _] => destruct c end;
    reflexivity.
Qed.

Lemma processBlob_benchmark blob (r : Repository) :
  getCollection blob = "benchmarks" ->
  processBlob blob r = processBenchmark blob r.
Proof.
  intros Heq. unfold processBlob. rewrite Heq. reflexivity.
Qed.

(** Whatever it does, [processBenchmark] leaves the storage, the pending
    tasks and every table but [benchmarks] as they were. *)
Lemma processBenchmark_frame blob (r : Repository) :
  repositoryStorage (processBenchmark blob r).2 = repositoryStorage r /\
  pending (processBenchmark blob r).2 = pending r /\
  forall table, table <> benchmarkTableName ->
    database (processBenchmark blob r).2 !! table = database r !! table.
Proof.
  unfold_repo. simpl.
  destruct (benchmarkCache r !! blob) as [b|]; simpl.
  - destruct (ensure_then_insert benchmarkTableName benchmarkColumns
                (benchmarkRow b) (database r)) as (db' & -> & _ & Hother).
    simpl. auto.
  - destruct (repositoryStorage r !! blob) as [buffer|]; simpl; [| auto].
    destruct (safeLoadBenchmark buffer) as [b|]; simpl; [| auto].
    destruct (ensure_then_insert benchmarkTableName benchmarkColumns
                (benchmarkRow b) (database r)) as (db' & -> & _ & Hother).
    simpl. auto.
Qed.

Lemma crawlLoop_frame blobs (r : Repository) :
  repositoryStorage (crawlLoop blobs r).2 = repositoryStorage r /\
  pending (crawlLoop blobs r).2 = pending r /\
  forall table, table <> benchmarkTableName ->
    database (crawlLoop blobs r).2 !! table = database r !! table.
Proof.
  revert r. induction blobs as [|blob rest IH]; intros r; [simpl; auto |].
  cbn [crawlLoop]. unfold mbind, M_bind.
  assert (repositoryStorage (processBlob blob r).2 = repositoryStorage r /\
          pending (processBlob blob r).2 = pending r /\
          forall table, table <> benchmarkTableName ->
            database (processBlob blob r).2 !! table = database r !! table)
    as (Hst & Hpe & Hdb).
  { destruct (decide (getCollection blob = "benchmarks")) as [Heq|Hne].
    - rewrite (processBlob_benchmark _ _ Heq). apply processBenchmark_frame.
    - rewrite (processBlob_not_benchmark _ _ Hne). simpl. auto. }
  destruct (processBlob blob r) as [[[]|e] r1]; simpl in *; [| auto].
  destruct (IH r1) as (Hst' & Hpe' & Hdb').
  rewrite Hst', Hpe'. repeat split; try assumption.
  intros table Hne. rewrite Hdb' by exact Hne. auto.
Qed.
(** [processBenchmark] on a blob that decodes: it succeeds and adds the
    row of the benchmark at the end of the table, whether or not the
    table or the row is already there. *)
Lemma processBenchmark_ok blob b (r : Repository) :
  cacheAgrees r ->
  storedBenchmark (repositoryStorage r) blob = Some b ->
  (processBenchmark blob r).1 = Ok tt /\
  cacheAgrees (processBenchmark blob r).2 /\
  tableRows benchmarkTableName (database (processBenchmark blob r).2) =
    tableRows benchmarkTableName (database r) ++ [benchmarkRow b].
Proof.
  intros Hcache Hstored. unfold_repo. simpl.
  destruct (benchmarkCache r !! blob) as [b'|] eqn:Hhit; simpl.
  - assert (b' = b) as -> by (apply Hcache in Hhit; congruence).
    destruct (ensure_then_insert benchmarkTableName benchmarkColumns
                (benchmarkRow b) (database r)) as (db' & -> & Hrows & _).
    simpl. auto.
  - unfold storedBenchmark in Hstored.
    destruct (repositoryStorage r !! blob) as [buffer|] eqn:Hblob;
      [| discriminate].
    simpl. rewrite Hstored. simpl.
    destruct (ensure_then_insert benchmarkTableName benchmarkColumns
                (benchmarkRow b) (database r)) as (db' & -> & Hrows & _).
    simpl. repeat split; [| exact Hrows].
    intros blob' b' Hlook. simpl in *.
    destruct (decide (blob = blob')) as [<-|Hne].
    + rewrite lookup_insert_eq in Hlook. injection Hlook as <-.
      unfold storedBenchmark. rewrite Hblob. exact Hstored.
    + rewrite lookup_insert_ne in Hlook by exact Hne. apply Hcache, Hlook.
Qed.

Lemma benchmarkBlobs_cons blob rest :
  benchmarkBlobs (blob :: rest) =
    if String.eqb (getCollection blob) "benchmarks"
    then blob :: benchmarkBlobs rest
    else benchmarkBlobs rest.
Proof. reflexivity. Qed.

(** A crawl over blobs whose benchmarks all decode succeeds and appends
    one row per benchmark blob listed, in listing order. *)
Lemma crawlLoop_ok blobs (r : Repository) :
  cacheAgrees r ->
  (forall blob, blob ∈ blobs -> getCollection blob = "benchmarks" ->
     is_Some (storedBenchmark (repositoryStorage r) blob)) ->
  (crawlLoop blobs r).1 = Ok tt /\
  cacheAgrees (crawlLoop blobs r).2 /\
  tableRows benchmarkTableName (database (crawlLoop blobs r).2) =
    tableRows benchmarkTableName (database r)
    ++ benchmarkRows (repositoryStorage r) blobs.
Proof.
  revert r. induction blobs as [|blob rest IH]; intros r Hcache Hdecode.
  - simpl. rewrite app_nil_r. auto.
  - cbn [crawlLoop]. unfold mbind, M_bind, benchmarkRows.
    rewrite benchmarkBlobs_cons.
    destruct (String.eqb_spec (getCollection blob) "benchmarks") as [Heq|Hne].
    + destruct (Hdecode blob) as [b Hb]; [left | exact Heq |].
      rewrite (processBlob_benchmark _ _ Heq).
      destruct (processBenchmark_ok blob b r Hcache Hb) as (Hok & Hc1 & Hrows).
      destruct (processBenchmark_frame blob r) as (Hst & _ & _).
      destruct (processBenchmark blob r) as [res r1]. simpl in *. subst res.
      destruct (IH r1 Hc1) as (Hok' & Hc' & Hrows').
      { intros blob' Hin. rewrite Hst. apply Hdecode. right. exact Hin. }
      repeat split; try assumption.
      rewrite Hrows', Hrows, Hst. cbn [omap list_omap]. rewrite Hb. simpl.
      rewrite <- app_assoc. reflexivity.
    + rewrite (processBlob_not_benchmark _ _ Hne).
      apply IH; [exact Hcache |].
      intros blob' Hin. apply Hdecode. right. exact Hin.
Qed.

Lemma benchmarkRows_length cloud blobs :
  (forall blob, blob ∈ blobs -> getCollection blob = "benchmarks" ->
     is_Some (storedBenchmark cloud blob)) ->
  length (benchmarkRows cloud blobs) = length (benchmarkBlobs blobs).
Proof.
  unfold benchmarkRows. induction blobs as [|blob rest IH]; intros Hdecode;
    [reflexivity |].
  rewrite benchmarkBlobs_cons.
  destruct (String.eqb_spec (getCollection blob) "benchmarks") as [Heq|Hne].
  - destruct (Hdecode blob) as [b Hb]; [left | exact Heq |].
    cbn [omap list_omap]. rewrite Hb. simpl. f_equal. apply IH.
    intros blob' Hin. apply Hdecode. right. exact Hin.
  - apply IH. intros blob' Hin. apply Hdecode. right. exact Hin.
Qed.

(** With nothing else pending, [initialize] followed by the event loop
    is [crawlBlobs] run to its end. *)
Lemma settle_initialize (r : Repository) :
  pending r = [] ->
  settle (initialize r).2 = (crawlBlobs r).2.
Proof.
  intros Hpending. unfold settle, initialize, crawlBlobs.
  unfold_repo. simpl. rewrite Hpending. reflexivity.
Qed.

(** One complete crawl of a storage whose benchmarks decode. *)
Lemma crawl_once (r : Repository) :
  pending r = [] ->
  cacheAgrees r ->
  benchmarksDecode (repositoryStorage r) ->
  pending (settle (initialize r).2) = [] /\
  cacheAgrees (settle (initialize r).2) /\
  repositoryStorage (settle (initialize r).2) = repositoryStorage r /\
  tableRows benchmarkTableName (database (settle (initialize r).2)) =
    tableRows benchmarkTableName (database r)
    ++ benchmarkRows (repositoryStorage r)
         (RamDisk.listBlobs (repositoryStorage r)).
Proof.
  intros Hpending Hcache Hdecode.
  rewrite (settle_initialize r Hpending).
  unfold crawlBlobs. unfold_repo. simpl.
  set (r0 := {| database := database r;
                benchmarkCache := benchmarkCache r;
                repositoryStorage := repositoryStorage r;
                console := console r ++ ["repository: beginning crawl"];
                pending := pending r |}).
  destruct (crawlLoop_frame (RamDisk.listBlobs (repositoryStorage r)) r0)
    as (Hst & Hpe & _).
  destruct (crawlLoop_ok (RamDisk.listBlobs (repositoryStorage r)) r0 Hcache)
    as (_ & Hc' & Hrows); [exact Hdecode |].
  rewrite Hpe, Hst. auto.
Qed.
Lemma benchmarksDecodeb_sound cloud :
  benchmarksDecodeb cloud = true -> benchmarksDecode cloud.
Proof.
  unfold benchmarksDecodeb, benchmarksDecode. rewrite forallb_forall.
  intros Hall blob Hin Hcol. apply list_elem_of_In in Hin.
  specialize (Hall blob Hin). rewrite Hcol in Hall. simpl in Hall.
  destruct (storedBenchmark cloud blob); [eauto | discriminate].
Qed.

(** C4: a complete crawl of any storage, whatever the listing order,
    leaves the database without any table other than [benchmarks]: no
    candidate, suite or run is recorded, [select] on such a table
    throws, and nothing is left queued. *)
Theorem crawl_records_only_benchmarks (cloud : gmap string string) table :
  table <> benchmarkTableName ->
  database (settle (initialize (newRepository cloud)).2) !! table = None /\
  (select table (settle (initialize (newRepository cloud)).2)).1
    = Throw (DatabaseError table) /\
  pending (settle (initialize (newRepository cloud)).2) = [].
Proof.
  intros Hne. rewrite settle_initialize by reflexivity.
  unfold crawlBlobs. unfold_repo. simpl.
  match goal with |- context [crawlLoop ?l ?r0] =>
    destruct (crawlLoop_frame l r0) as (_ & Hpe & Hdb)
  end.
  specialize (Hdb table Hne). simpl in Hdb, Hpe.
  rewrite lookup_empty in Hdb.
  unfold select, LocalDatabase.getColumns. rewrite Hdb. auto.
Qed.

(** C5: two complete crawls of an unchanged storage whose benchmark
    blobs decode leave every benchmark row twice in the [benchmarks]
    table: it has two rows per benchmark blob, not one. *)
Theorem initialize_twice_duplicates (cloud : gmap string string) :
  benchmarksDecodeb cloud = true ->
  let once := settle (initialize (newRepository cloud)).2 in
  let twice := settle (initialize once).2 in
  repositoryStorage twice = cloud /\
  tableRows benchmarkTableName (database once)
    = benchmarkRows cloud (RamDisk.listBlobs cloud) /\
  tableRows benchmarkTableName (database twice)
    = benchmarkRows cloud (RamDisk.listBlobs cloud)
      ++ benchmarkRows cloud (RamDisk.listBlobs cloud) /\
  length (tableRows benchmarkTableName (database twice))
    = 2 * length (benchmarkBlobs (RamDisk.listBlobs cloud)).
Proof.
  intros Hdecode%benchmarksDecodeb_sound once twice.
  destruct (crawl_once (newRepository cloud)) as (Hp1 & Hc1 & Hs1 & Hr1);
    [reflexivity | intros blob b Hhit; simpl in Hhit;
                   rewrite lookup_empty in Hhit; discriminate
     | exact Hdecode |].
  fold once in Hp1, Hc1, Hs1, Hr1. simpl in Hs1, Hr1.
  rewrite tableRows_empty in Hr1. simpl in Hr1.
  destruct (crawl_once once) as (_ & _ & Hs2 & Hr2);
    [exact Hp1 | exact Hc1 | rewrite Hs1; exact Hdecode |].
  fold twice in Hs2, Hr2. rewrite Hs1 in Hs2, Hr2. rewrite Hr1 in Hr2.
  repeat split; try assumption.
  rewrite Hr2, length_app, benchmarkRows_length by exact Hdecode. lia.
Qed.

(** C9: [initialize] returns with the crawl still pending: the database
    is what it was, so a [select] issued right after [initialize] has
    returned answers as it would have before, and the loop over the
    listed blobs is the task that is left to run. *)
Theorem initialize_returns_before_crawl (r : Repository) :
  (initialize r).1 = Ok tt /\
  database (initialize r).2 = database r /\
  pending (initialize r).2
    = pending r ++ [CrawlTask (RamDisk.listBlobs (repositoryStorage r))] /\
  forall from, (select from (initialize r).2).1 = (select from r).1.
Proof.
  unfold initialize. unfold_repo. simpl. repeat split.
  intros from. unfold select. simpl.
  destruct (LocalDatabase.getColumns from (database r)); [| reflexivity].
  destruct (LocalDatabase.select from (database r)); reflexivity.
Qed.
End RepositoryFacts.

(* ===================================================================== *)
(** ** Laboratory: submissions and runs, further facts *)
(* ===================================================================== *)

Section SubmissionFacts.
Context `{Naming} `{Yaml}.

(** [create] on a key that is free. *)
Lemma create_fresh_eq (d : AnyDescription) key (w : World) :
  storageKey d = Some key ->
  cloudStorage w !! key = None ->
  create d w =
    (Ok key,
     {| cloudStorage := <[key := safeDump d]> (cloudStorage w);
        events := events w ++ [Log (uploadMessage (kindOf d) key)];
        runsCreated := runsCreated w |}).
Proof.
  intros Hkey Hfree.
  destruct d as [b|c|s|tag e]; simpl in Hkey; [| | | discriminate];
    injection Hkey as <-; unfold_lab; simpl; rewrite Hfree; reflexivity.
Qed.

(** [create] on a key that is taken. *)
Lemma create_taken_eq (d : AnyDescription) key old (w : World) :
  storageKey d = Some key ->
  cloudStorage w !! key = Some old ->
  create d w = (Throw (StorageError key), w).
Proof.
  intros Hkey Hold.
  destruct d as [b|c|s|tag e]; simpl in Hkey; [| | | discriminate];
    injection Hkey as <-; unfold_lab; simpl; rewrite Hold; reflexivity.
Qed.

(** X1: [create] of a benchmark, candidate or suite whose key is free
    returns the key; afterwards the key holds the dump of the description,
    every other key holds what it held, and one line was logged. *)
Theorem create_stores_under_key (d : AnyDescription) key (w : World) :
  storageKey d = Some key ->
  cloudStorage w !! key = None ->
  (create d w).1 = Ok key /\
  cloudStorage (create d w).2 !! key = Some (safeDump d) /\
  (forall other, other <> key ->
     cloudStorage (create d w).2 !! other = cloudStorage w !! other) /\
  logged (events (create d w).2)
    = logged (events w) ++ [uploadMessage (kindOf d) key].
Proof.
  intros Hkey Hfree. rewrite (create_fresh_eq d key w Hkey Hfree).
  cbn [fst snd cloudStorage events]. repeat split.
  - apply lookup_insert_eq.
  - intros other Hne. apply lookup_insert_ne. congruence.
  - project_events. reflexivity.
Qed.

(** X2: [create] returns a key exactly when the description is of a
    supported kind and its storage key is free. *)
Theorem create_succeeds_iff_fresh (d : AnyDescription) (w : World) :
  (exists key, (create d w).1 = Ok key) <->
  (exists key, storageKey d = Some key /\ cloudStorage w !! key = None).
Proof.
  split.
  - intros [key Hok].
    destruct (storageKey d) as [k|] eqn:Hkey.
    + destruct (cloudStorage w !! k) as [old|] eqn:Hk; [| eauto].
      rewrite (create_taken_eq d k old w Hkey Hk) in Hok. discriminate.
    + destruct d as [b|c|s|tag e]; discriminate.
  - intros (key & Hkey & Hfree). exists key.
    rewrite (create_fresh_eq d key w Hkey Hfree). reflexivity.
Qed.

(** X3: of two submissions for one storage key the first wins: the second
    [create] throws and the key still holds the dump of the first
    description. *)
Theorem create_first_wins (d d' : AnyDescription) key (w : World) :
  storageKey d = Some key ->
  storageKey d' = Some key ->
  cloudStorage w !! key = None ->
  (create d' (create d w).2).1 = Throw (StorageError key) /\
  cloudStorage (create d' (create d w).2).2 !! key = Some (safeDump d).
Proof.
  intros Hkey Hkey' Hfree. rewrite (create_fresh_eq d key w Hkey Hfree).
  cbn [snd].
  rewrite (create_taken_eq d' key (safeDump d) _ Hkey'); cbn [cloudStorage].
  - split; [reflexivity |]. cbn [snd cloudStorage]. apply lookup_insert_eq.
  - apply lookup_insert_eq.
Qed.

(** X4: whatever its outcome, [create] issues no [createWorker] call,
    draws no run id, and leaves every blob but the one under the storage
    key of the description as it was. *)
Theorem create_frame (d : AnyDescription) (w : World) :
  workerRequests (events (create d w).2) = workerRequests (events w) /\
  runsCreated (create d w).2 = runsCreated w /\
  forall other, storageKey d <> Some other ->
    cloudStorage (create d w).2 !! other = cloudStorage w !! other.
Proof.
  destruct (storageKey d) as [key|] eqn:Hkey.
  - destruct (cloudStorage w !! key) as [old|] eqn:Hk.
    + rewrite (create_taken_eq d key old w Hkey Hk). auto.
    + rewrite (create_fresh_eq d key w Hkey Hk).
      cbn [snd cloudStorage events runsCreated]. project_events.
      repeat split. intros other Hne. apply lookup_insert_ne. congruence.
  - destruct d as [b|c|s|tag e]; try discriminate.
    unfold_lab. cbn [snd cloudStorage events runsCreated]. project_events.
    auto.
Qed.
End SubmissionFacts.

Section RunFacts.
Context `{Naming} `{Yaml} `{Loaders} `{Secrets}.

(** [run] when the suite does not load: the blob is absent or does not
    decode. *)
Lemma run_suite_unloaded lab candidateId suiteId (w : World) :
  storedSuite (cloudStorage w) suiteId = None ->
  run lab candidateId suiteId w =
    (Throw (TypeError ("Cannot find suite " +:+ suiteId)),
     {| cloudStorage := cloudStorage w;
        events := (events w ++ [Log (runMessage candidateId suiteId)])
                  ++ [LoadSuite suiteId];
        runsCreated := runsCreated w |}).
Proof.
  unfold storedSuite. intros Hnone. unfold_lab. simpl.
  destruct (cloudStorage w !! suiteBlob suiteId) as [bs|]; simpl;
    [rewrite Hnone |]; reflexivity.
Qed.

(** [run] when the suite loads and the candidate does not. *)
Lemma run_candidate_unloaded lab candidateId suiteId (w : World) suite :
  storedSuite (cloudStorage w) suiteId = Some suite ->
  storedCandidate (cloudStorage w) candidateId = None ->
  run lab candidateId suiteId w =
    (Throw (TypeError ("Cannot find candidate " +:+ candidateId)),
     {| cloudStorage := cloudStorage w;
        events := ((events w ++ [Log (runMessage candidateId suiteId)])
                   ++ [LoadSuite suiteId]) ++ [LoadCandidate candidateId];
        runsCreated := runsCreated w |}).
Proof.
  unfold storedSuite, storedCandidate. intros Hs Hc. unfold_lab. simpl.
  destruct (cloudStorage w !! suiteBlob suiteId) as [bs|]; [| discriminate].
  simpl. rewrite Hs. simpl.
  destruct (cloudStorage w !! candidateBlob candidateId) as [bc|]; simpl;
    [rewrite Hc |]; reflexivity.
Qed.

(** [run_loaded], from what the two loaders find. *)
Lemma run_both_loaded candidateId suiteId (w : World) suite candidate :
  storedSuite (cloudStorage w) suiteId = Some suite ->
  storedCandidate (cloudStorage w) candidateId = Some candidate ->
  exists bs bc,
    cloudStorage w !! suiteBlob suiteId = Some bs /\
    safeLoadSuite bs = Some suite /\
    cloudStorage w !! candidateBlob candidateId = Some bc /\
    safeLoadCandidate bc = Some candidate.
Proof.
  unfold storedSuite, storedCandidate. intros Hs Hc.
  destruct (cloudStorage w !! suiteBlob suiteId) as [bs|]; [| discriminate].
  destruct (cloudStorage w !! candidateBlob candidateId) as [bc|];
    [| discriminate].
  exists bs, bc. auto.
Qed.

(** The world a successful [run] ends in. *)
Lemma run_Ok_world lab candidateId suiteId (w : World) :
  (run lab candidateId suiteId w).1 = Ok tt ->
  exists suite plain,
    (run lab candidateId suiteId w).2 =
      {| cloudStorage := cloudStorage w;
         events :=
           events w
           ++ [Log (runMessage candidateId suiteId);
               LoadSuite suiteId;
               LoadCandidate candidateId;
               Log ("Starting candidate " +:+ candidateId +:+ " on "
                    +:+ "c" +:+ freshRunId (runsCreated w));
               CreateWorker
                 (candidateWorker candidateId (freshRunId (runsCreated w))
                    plain);
               Log ("Starting benchmark "
                    +:+ SuiteDescription.benchmarkId suite +:+ " on "
                    +:+ "b" +:+ freshRunId (runsCreated w));
               CreateWorker
                 (benchmarkWorker candidateId suiteId
                    (SuiteDescription.benchmarkId suite)
                    (freshRunId (runsCreated w)))];
         runsCreated := S (runsCreated w) |}.
Proof.
  intros Hok.
  destruct (run_Ok_inv _ _ _ _ Hok)
    as (bs & suite & bc & candidate & plain & Hs & Hps & Hc & Hpc & Heq & Hdec).
  exists suite, plain.
  rewrite (run_loaded lab candidateId suiteId w _ _ _ _ Hs Hps Hc Hpc).
  cbv zeta. rewrite bool_decide_eq_true_2 by exact Heq. rewrite Hdec.
  cbn [snd events]. rewrite <- !app_assoc. reflexivity.
Qed.

(** X5: when the suite loads and the candidate blob is absent or does not
    decode, [run] throws "Cannot find candidate <candidateId>"; it has
    logged nothing but its own call, issued no [createWorker] call and
    drawn no run id. *)
Theorem run_candidate_not_found lab candidateId suiteId (w : World) suite :
  storedSuite (cloudStorage w) suiteId = Some suite ->
  storedCandidate (cloudStorage w) candidateId = None ->
  (run lab candidateId suiteId w).1
    = Throw (TypeError ("Cannot find candidate " +:+ candidateId)) /\
  logged (events (run lab candidateId suiteId w).2)
    = logged (events w) ++ [runMessage candidateId suiteId] /\
  workerRequests (events (run lab candidateId suiteId w).2)
    = workerRequests (events w) /\
  runsCreated (run lab candidateId suiteId w).2 = runsCreated w.
Proof.
  intros Hs Hc. rewrite (run_candidate_unloaded lab _ _ _ _ Hs Hc).
  cbn [fst snd events runsCreated]. project_events. auto.
Qed.

(** X6: a suite blob that is there but does not decode is reported like a
    missing one: [run] throws "Cannot find suite <suiteId>", without
    trying the candidate and without a [createWorker] call. *)
Theorem run_undecodable_suite lab candidateId suiteId (w : World) buffer :
  cloudStorage w !! suiteBlob suiteId = Some buffer ->
  safeLoadSuite buffer = None ->
  (run lab candidateId suiteId w).1
    = Throw (TypeError ("Cannot find suite " +:+ suiteId)) /\
  candidateLoads (events (run lab candidateId suiteId w).2)
    = candidateLoads (events w) /\
  workerRequests (events (run lab candidateId suiteId w).2)
    = workerRequests (events w).
Proof.
  intros Hblob Hdecode.
  rewrite (run_suite_unloaded lab candidateId suiteId w).
  - cbn [fst snd events]. project_events. auto.
  - unfold storedSuite. rewrite Hblob. exact Hdecode.
Qed.

(** X7: a [run] issues both [createWorker] calls or none: none when it
    throws, whatever the reason, and two when it returns. *)
Theorem run_all_or_nothing lab candidateId suiteId (w : World) :
  match (run lab candidateId suiteId w).1 with
  | Throw _ =>
      workerRequests (events (run lab candidateId suiteId w).2)
        = workerRequests (events w)
  | Ok _ =>
      exists first second,
        workerRequests (events (run lab candidateId suiteId w).2)
          = workerRequests (events w) ++ [first; second]
  end.
Proof.
  destruct (storedSuite (cloudStorage w) suiteId) as [suite|] eqn:Hs.
  2: { rewrite (run_suite_unloaded lab _ _ _ Hs).
       cbn [fst snd events]. project_events. reflexivity. }
  destruct (storedCandidate (cloudStorage w) candidateId) as [candidate|]
    eqn:Hc.
  2: { rewrite (run_candidate_unloaded lab _ _ _ _ Hs Hc).
       cbn [fst snd events]. project_events. reflexivity. }
  destruct (run_both_loaded candidateId suiteId w _ _ Hs Hc)
    as (bs & bc & Hbs & Hps & Hbc & Hpc).
  rewrite (run_loaded lab candidateId suiteId w _ _ _ _ Hbs Hps Hbc Hpc).
  cbv zeta. case_bool_decide.
  - destruct (decryptSecrets candidate (privateKey (keys lab)));
      cbn [fst snd events]; project_events; eauto.
  - cbn [fst snd events]. project_events. reflexivity.
Qed.

(** X8: [run] draws a run id exactly when both descriptions loaded and
    agree on the benchmark: a run that fails on a missing description or
    on the benchmark mismatch draws none, and a run whose decryption
    fails has drawn one. *)
Theorem run_draws_id_after_validation lab candidateId suiteId (w : World) :
  runsCreated (run lab candidateId suiteId w).2 =
    if validated (cloudStorage w) candidateId suiteId
    then S (runsCreated w)
    else runsCreated w.
Proof.
  unfold validated.
  destruct (storedSuite (cloudStorage w) suiteId) as [suite|] eqn:Hs.
  2: { rewrite (run_suite_unloaded lab _ _ _ Hs). reflexivity. }
  destruct (storedCandidate (cloudStorage w) candidateId) as [candidate|]
    eqn:Hc.
  2: { rewrite (run_candidate_unloaded lab _ _ _ _ Hs Hc). reflexivity. }
  destruct (run_both_loaded candidateId suiteId w _ _ Hs Hc)
    as (bs & bc & Hbs & Hps & Hbc & Hpc).
  rewrite (run_loaded lab candidateId suiteId w _ _ _ _ Hbs Hps Hbc Hpc).
  cbv zeta. case_bool_decide; [| reflexivity].
  destruct (decryptSecrets candidate (privateKey (keys lab))); reflexivity.
Qed.

(** X9: two runs that succeed one after the other issue four
    [createWorker] calls, on the hosts c and b of the run id of the first
    and c and b of the next run id; when these two ids differ, no two of
    the four hosts are the same. *)
Theorem run_twice_distinct_hosts lab candidateId suiteId candidateId'
    suiteId' (w : World) :
  let first := run lab candidateId suiteId w in
  let second := run lab candidateId' suiteId' first.2 in
  let id := freshRunId (runsCreated w) in
  let id' := freshRunId (S (runsCreated w)) in
  first.1 = Ok tt ->
  second.1 = Ok tt ->
  id <> id' ->
  exists requests,
    workerRequests (events second.2) = workerRequests (events w) ++ requests /\
    hostname <$> requests = ["c" +:+ id; "b" +:+ id; "c" +:+ id'; "b" +:+ id'] /\
    NoDup (hostname <$> requests).
Proof.
  intros first second id id' Hfirst Hsecond Hne.
  destruct (run_Ok_world _ _ _ _ Hfirst) as (suite & plain & Hw1).
  destruct (run_Ok_world _ _ _ _ Hsecond) as (suite' & plain' & Hw2).
  fold first in Hw1. fold second in Hw2.
  rewrite Hw2, Hw1. cbn [events runsCreated]. project_events.
  eexists. split; [reflexivity |]. split; [reflexivity |].
  fold id id'. cbn.
  rewrite !NoDup_cons, !elem_of_cons, !elem_of_nil.
  repeat split; try apply NoDup_nil_2; intros Hin;
    repeat destruct Hin as [Hin|Hin]; cbv [String.append] in Hin;
    try discriminate Hin; try (injection Hin as Hin; congruence); exact Hin.
Qed.

(** X10: a successful [run] acts in this order: it logs its call, loads
    the suite, then the candidate, logs the start of the candidate and
    asks for its worker, logs the start of the benchmark and asks for its
    worker; nothing else is logged, loaded or asked. *)
Theorem run_order_of_effects lab candidateId suiteId (w : World) :
  (run lab candidateId suiteId w).1 = Ok tt ->
  exists candidateRequest benchmarkRequest,
    hostname candidateRequest = "c" +:+ freshRunId (runsCreated w) /\
    hostname benchmarkRequest = "b" +:+ freshRunId (runsCreated w) /\
    events (run lab candidateId suiteId w).2 =
      events w
      ++ [Log (runMessage candidateId suiteId);
          LoadSuite suiteId;
          LoadCandidate candidateId;
          Log ("Starting candidate " +:+ candidateId +:+ " on "
               +:+ hostname candidateRequest);
          CreateWorker candidateRequest;
          Log ("Starting benchmark " +:+ imageId benchmarkRequest +:+ " on "
               +:+ hostname benchmarkRequest);
          CreateWorker benchmarkRequest].
Proof.
  intros Hok. destruct (run_Ok_world _ _ _ _ Hok) as (suite & plain & ->).
  exists (candidateWorker candidateId (freshRunId (runsCreated w)) plain),
         (benchmarkWorker candidateId suiteId
            (SuiteDescription.benchmarkId suite) (freshRunId (runsCreated w))).
  repeat split.
Qed.

(** X19: [run] reads two blobs of the cloud storage and no other: in two
    worlds that hold the same blob for the suite and the same blob for the
    candidate, and have issued as many run ids, it has the same outcome
    and issues the same [createWorker] calls.  In particular it never
    looks for the benchmark. *)
Theorem run_reads_two_blobs lab candidateId suiteId (w w' : World) :
  cloudStorage w !! suiteBlob suiteId = cloudStorage w' !! suiteBlob suiteId ->
  cloudStorage w !! candidateBlob candidateId
    = cloudStorage w' !! candidateBlob candidateId ->
  runsCreated w = runsCreated w' ->
  (run lab candidateId suiteId w).1 = (run lab candidateId suiteId w').1 /\
  exists requests,
    workerRequests (events (run lab candidateId suiteId w).2)
      = workerRequests (events w) ++ requests /\
    workerRequests (events (run lab candidateId suiteId w').2)
      = workerRequests (events w') ++ requests.
Proof.
  intros Hsuite Hcandidate Hruns.
  assert (storedSuite (cloudStorage w') suiteId
          = storedSuite (cloudStorage w) suiteId) as Hs'
    by (unfold storedSuite; rewrite Hsuite; reflexivity).
  assert (storedCandidate (cloudStorage w') candidateId
          = storedCandidate (cloudStorage w) candidateId) as Hc'
    by (unfold storedCandidate; rewrite Hcandidate; reflexivity).
  destruct (storedSuite (cloudStorage w) suiteId) as [suite|] eqn:Hs.
  2: { rewrite (run_suite_unloaded lab _ _ w Hs),
         (run_suite_unloaded lab _ _ w' Hs').
       split; [reflexivity |]. exists [].
       cbn [snd events]. project_events. auto. }
  destruct (storedCandidate (cloudStorage w) candidateId) as [candidate|]
    eqn:Hc.
  2: { rewrite (run_candidate_unloaded lab _ _ w _ Hs Hc),
         (run_candidate_unloaded lab _ _ w' _ Hs' Hc').
       split; [reflexivity |]. exists [].
       cbn [snd events]. project_events. auto. }
  destruct (run_both_loaded candidateId suiteId w _ _ Hs Hc)
    as (bs & bc & Hbs & Hps & Hbc & Hpc).
  destruct (run_both_loaded candidateId suiteId w' _ _ Hs' Hc')
    as (bs' & bc' & Hbs' & Hps' & Hbc' & Hpc').
  rewrite (run_loaded lab candidateId suiteId w _ _ _ _ Hbs Hps Hbc Hpc),
    (run_loaded lab candidateId suiteId w' _ _ _ _ Hbs' Hps' Hbc' Hpc').
  cbv zeta. rewrite <- Hruns. case_bool_decide.
  - destruct (decryptSecrets candidate (privateKey (keys lab)));
      (split; [reflexivity |]); cbn [snd events]; project_events.
    + eexists. split; reflexivity.
    + exists []. rewrite !app_nil_r. auto.
  - split; [reflexivity |]. exists [].
    cbn [snd events]. project_events. auto.
Qed.
End RunFacts.

Section SubmitThenRun.
Context `{Naming} `{Yaml} `{Loaders} `{Secrets}.

(** X11: a suite and a candidate for the same benchmark are submitted
    with [create] under free, different keys, the loaders read these
    keys for the two ids, the dumps decode and the secrets decrypt: then
    [run] on the two ids succeeds and the only [createWorker] calls since
    before the submissions are its two. *)
Theorem create_then_run lab candidateId suiteId
    (S1 : SuiteDescription.t) (C1 plain : CandidateDescription.t)
    (w : World) :
  let suiteKey := encodeSuite (name (SuiteDescription.entity S1)) in
  let candidateKey := encodeCandidate (CandidateDescription.image C1) in
  let submitted := (create (ACandidate C1) (create (ASuite S1) w).2).2 in
  suiteBlob suiteId = suiteKey ->
  candidateBlob candidateId = candidateKey ->
  cloudStorage w !! suiteKey = None ->
  cloudStorage w !! candidateKey = None ->
  suiteKey <> candidateKey ->
  safeLoadSuite (safeDump (ASuite S1)) = Some S1 ->
  safeLoadCandidate (safeDump (ACandidate C1)) = Some C1 ->
  SuiteDescription.benchmarkId S1 = CandidateDescription.benchmarkId C1 ->
  decryptSecrets C1 (privateKey (keys lab)) = Ok plain ->
  (run lab candidateId suiteId submitted).1 = Ok tt /\
  workerRequests (events (run lab candidateId suiteId submitted).2) =
    workerRequests (events w)
    ++ [candidateWorker candidateId (freshRunId (runsCreated w)) plain;
        benchmarkWorker candidateId suiteId
          (SuiteDescription.benchmarkId S1) (freshRunId (runsCreated w))].
Proof.
  intros suiteKey candidateKey submitted Hsb Hcb Hfs Hfc Hne Hps Hpc Hbid Hdec.
  subst submitted.
  rewrite (create_fresh_eq (ASuite S1) suiteKey w eq_refl Hfs). cbn [snd].
  rewrite (create_fresh_eq (ACandidate C1) candidateKey _ eq_refl);
    [| cbn [cloudStorage]; rewrite lookup_insert_ne by exact Hne; exact Hfc].
  cbn [snd cloudStorage events runsCreated].
  match goal with |- context [run _ _ _ ?w2] => set (w2' := w2) end.
  assert (cloudStorage w2' !! suiteBlob suiteId = Some (safeDump (ASuite S1)))
    as Hs.
  { subst w2'. cbn [cloudStorage]. rewrite Hsb.
    rewrite lookup_insert_ne by congruence. apply lookup_insert_eq. }
  assert (cloudStorage w2' !! candidateBlob candidateId
          = Some (safeDump (ACandidate C1))) as Hc.
  { subst w2'. cbn [cloudStorage]. rewrite Hcb. apply lookup_insert_eq. }
  rewrite (run_loaded lab candidateId suiteId w2' _ _ S1 C1 Hs Hps Hc Hpc).
  cbv zeta. rewrite bool_decide_eq_true_2 by exact Hbid. rewrite Hdec.
  split; [reflexivity |]. subst w2'.
  cbn [snd events runsCreated]. project_events. reflexivity.
Qed.
End SubmitThenRun.

(* ===================================================================== *)
(** ** Repository: the crawl, further facts *)
(* ===================================================================== *)

(** Inserting a row of the right width into an ensured [benchmarks] table
    keeps the database well formed. *)
Lemma insert_wellFormed row (db db' : gmap string Table) :
  wellFormed db ->
  length row = length benchmarkColumns ->
  LocalDatabase.insert benchmarkTableName row
    (LocalDatabase.ensureTable benchmarkTableName benchmarkColumns db) = Ok db' ->
  wellFormed db'.
Proof.
  unfold LocalDatabase.insert, LocalDatabase.ensureTable.
  intros Hwf Hlen Hins table t Hlook.
  destruct (db !! benchmarkTableName) as [t0|] eqn:Ht.
  - rewrite Ht in Hins. injection Hins as <-.
    destruct (decide (table = benchmarkTableName)) as [->|Hne].
    + rewrite lookup_insert_eq in Hlook. injection Hlook as <-.
      destruct (Hwf _ _ Ht) as (_ & Hcols & Hrows). simpl.
      repeat split; [exact Hcols |].
      apply Forall_app. split; [exact Hrows | constructor; auto].
    + rewrite lookup_insert_ne in Hlook by congruence. eauto.
  - rewrite lookup_insert_eq in Hins. injection Hins as <-.
    destruct (decide (table = benchmarkTableName)) as [->|Hne].
    + rewrite lookup_insert_eq in Hlook. injection Hlook as <-. simpl.
      repeat split. constructor; auto.
    + rewrite !lookup_insert_ne in Hlook by congruence. eauto.
Qed.

Lemma concat_replicate_snoc {A} (n : nat) (l : list A) :
  concat (replicate n l) ++ l = l ++ concat (replicate n l).
Proof.
  induction n as [|n IH]; simpl; [rewrite app_nil_r; reflexivity |].
  rewrite <- app_assoc, IH. reflexivity.
Qed.

Section CrawlFacts.
Context `{Naming} `{Yaml}.

(** A listing crawled in two parts: the second part is crawled from where
    the first ended, unless the first threw. *)
Lemma crawlLoop_app (l1 l2 : list string) (r : Repository) :
  crawlLoop (l1 ++ l2) r = (crawlLoop l1;; crawlLoop l2) r.
Proof.
  revert r. induction l1 as [|blob rest IH]; intros r; [reflexivity |].
  cbn [app crawlLoop]. unfold mbind, M_bind in *.
  destruct (processBlob blob r) as [[[]|e] r1]; [apply IH | reflexivity].
Qed.

Lemma cacheAgrees_new (cloud : gmap string string) :
  cacheAgrees (newRepository cloud).
Proof.
  intros blob b Hhit. simpl in Hhit. rewrite lookup_empty in Hhit.
  discriminate.
Qed.

Lemma decodesAll_sound cloud blobs :
  decodesAll cloud blobs = true ->
  forall blob, blob ∈ blobs -> getCollection blob = "benchmarks" ->
    is_Some (storedBenchmark cloud blob).
Proof.
  unfold decodesAll. rewrite forallb_forall.
  intros Hall blob Hin Hcol. apply list_elem_of_In in Hin.
  specialize (Hall blob Hin). rewrite Hcol in Hall. simpl in Hall.
  destruct (storedBenchmark cloud blob); [eauto | discriminate].
Qed.

(** The rows of a listing, one blob at a time. *)
Lemma benchmarkRows_cons cloud blob rest :
  benchmarkRows cloud (blob :: rest) =
    (if String.eqb (getCollection blob) "benchmarks"
     then option_list (benchmarkRow <$> storedBenchmark cloud blob)
     else [])
    ++ benchmarkRows cloud rest.
Proof.
  unfold benchmarkRows. rewrite benchmarkBlobs_cons.
  destruct (String.eqb (getCollection blob) "benchmarks"); [| reflexivity].
  cbn [omap list_omap].
  destruct (storedBenchmark cloud blob); reflexivity.
Qed.

Lemma benchmarkRows_Permutation cloud (blobs blobs' : list string) :
  blobs ≡ₚ blobs' ->
  benchmarkRows cloud blobs ≡ₚ benchmarkRows cloud blobs'.
Proof.
  induction 1 as [|blob l l' _ IH|a b l|l l' l'' _ IH1 _ IH2].
  - reflexivity.
  - rewrite !benchmarkRows_cons. apply Permutation_app_head, IH.
  - rewrite !benchmarkRows_cons, !app_assoc.
    apply Permutation_app_tail, Permutation_app_comm.
  - etransitivity; eassumption.
Qed.

(** [processBenchmark] on a blob that is not cached and does not load. *)
Lemma processBenchmark_fails blob (r : Repository) :
  benchmarkCache r !! blob = None ->
  storedBenchmark (repositoryStorage r) blob = None ->
  exists e,
    processBenchmark blob r =
      (Throw e, (consoleLog ("repository: processBenchmark " +:+ blob) r).2).
Proof.
  unfold storedBenchmark. intros Hmiss Hnone. unfold_repo. simpl.
  rewrite Hmiss.
  destruct (repositoryStorage r !! blob) as [buffer|]; simpl;
    [rewrite Hnone |]; eauto.
Qed.

Lemma processBenchmark_wellFormed blob (r : Repository) :
  wellFormed (database r) ->
  wellFormed (database (processBenchmark blob r).2).
Proof.
  intros Hwf. unfold_repo. simpl.
  destruct (benchmarkCache r !! blob) as [b|]; simpl.
  - destruct (ensure_then_insert benchmarkTableName benchmarkColumns
                (benchmarkRow b) (database r)) as (db' & Hins & _).
    rewrite Hins. simpl.
    eapply insert_wellFormed; [exact Hwf | | exact Hins]. reflexivity.
  - destruct (repositoryStorage r !! blob) as [buffer|]; simpl; [| exact Hwf].
    destruct (safeLoadBenchmark buffer) as [b|]; simpl; [| exact Hwf].
    destruct (ensure_then_insert benchmarkTableName benchmarkColumns
                (benchmarkRow b) (database r)) as (db' & Hins & _).
    rewrite Hins. simpl.
    eapply insert_wellFormed; [exact Hwf | | exact Hins]. reflexivity.
Qed.

Lemma crawlLoop_wellFormed blobs (r : Repository) :
  wellFormed (database r) ->
  wellFormed (database (crawlLoop blobs r).2).
Proof.
  revert r. induction blobs as [|blob rest IH]; intros r Hwf; [exact Hwf |].
  cbn [crawlLoop]. unfold mbind, M_bind.
  assert (wellFormed (database (processBlob blob r).2)) as Hwf1.
  { destruct (decide (getCollection blob = "benchmarks")) as [Heq|Hne].
    - rewrite (processBlob_benchmark _ _ Heq).
      apply processBenchmark_wellFormed, Hwf.
    - rewrite (processBlob_not_benchmark _ _ Hne). exact Hwf. }
  destruct (processBlob blob r) as [[[]|e] r1]; simpl in *; auto.
Qed.

Lemma settle_wellFormed (r : Repository) :
  wellFormed (database r) ->
  wellFormed (database (settle r)).
Proof.
  unfold settle. intros Hwf.
  set (r0 := {| database := database r;
                benchmarkCache := benchmarkCache r;
                repositoryStorage := repositoryStorage r;
                console := console r;
                pending := [] |}).
  assert (wellFormed (database r0)) as Hwf0 by exact Hwf.
  clearbody r0. revert r0 Hwf0.
  induction (pending r) as [|[blobs] tasks IH]; intros r0 Hwf0; [exact Hwf0 |].
  cbn [foldl]. apply IH. unfold runTask. apply crawlLoop_wellFormed, Hwf0.
Qed.

Lemma initialize_database (r : Repository) :
  database (initialize r).2 = database r.
Proof. reflexivity. Qed.

Lemma crawls_wellFormed (cloud : gmap string string) (n : nat) :
  wellFormed (database (crawls n (newRepository cloud))).
Proof.
  induction n as [|n IH].
  - intros table t Hlook. simpl in Hlook. rewrite lookup_empty in Hlook.
    discriminate.
  - cbn [crawls]. apply settle_wellFormed.
    rewrite initialize_database. exact IH.
Qed.

(** What [n] complete crawls of a storage whose benchmarks decode leave. *)
Lemma crawls_state (cloud : gmap string string) (n : nat) :
  benchmarksDecode cloud ->
  pending (crawls n (newRepository cloud)) = [] /\
  cacheAgrees (crawls n (newRepository cloud)) /\
  repositoryStorage (crawls n (newRepository cloud)) = cloud /\
  tableRows benchmarkTableName (database (crawls n (newRepository cloud)))
    = concat (replicate n (benchmarkRows cloud (RamDisk.listBlobs cloud))).
Proof.
  intros Hdecode. induction n as [|n (Hp & Hc & Hs & Hr)].
  - simpl. rewrite tableRows_empty. auto using cacheAgrees_new.
  - cbn [crawls].
    destruct (crawl_once (crawls n (newRepository cloud)) Hp Hc)
      as (Hp' & Hc' & Hs' & Hr'); [rewrite Hs; exact Hdecode |].
    rewrite Hs in Hs', Hr'. rewrite Hr in Hr'.
    repeat split; try assumption.
    rewrite Hr'. cbn [replicate concat]. apply concat_replicate_snoc.
Qed.

(** X12: a listing whose blobs all lie outside the benchmarks collection
    (candidates, suites, runs, logs, anything else) is crawled without any
    effect: the repository is exactly what it was. *)
Theorem crawl_skips_other_blobs (blobs : list string) (r : Repository) :
  noBenchmark blobs = true ->
  crawlLoop blobs r = (Ok tt, r).
Proof.
  unfold noBenchmark. rewrite forallb_forall. intros Hall.
  induction blobs as [|blob rest IH]; [reflexivity |].
  cbn [crawlLoop]. unfold mbind, M_bind.
  rewrite processBlob_not_benchmark.
  - apply IH. intros b Hin. apply Hall. right. exact Hin.
  - specialize (Hall blob (or_introl eq_refl)).
    apply negb_true_iff in Hall. intros Heq. rewrite Heq in Hall.
    discriminate.
Qed.

(** X13: the crawl stops at the first benchmark blob that is neither
    cached nor loadable: the loop throws, the database and the cache are
    what they were, and the blobs listed after it are never processed. *)
Theorem crawl_stops_at_bad_benchmark blob (rest : list string)
    (r : Repository) :
  getCollection blob = "benchmarks" ->
  benchmarkCache r !! blob = None ->
  storedBenchmark (repositoryStorage r) blob = None ->
  (exists e, (crawlLoop (blob :: rest) r).1 = Throw e) /\
  database (crawlLoop (blob :: rest) r).2 = database r /\
  benchmarkCache (crawlLoop (blob :: rest) r).2 = benchmarkCache r /\
  (crawlLoop (blob :: rest) r).2 = (crawlLoop [blob] r).2.
Proof.
  intros Hcol Hmiss Hnone.
  destruct (processBenchmark_fails blob r Hmiss Hnone) as [e He].
  cbn [crawlLoop]. unfold mbind, M_bind.
  rewrite (processBlob_benchmark _ _ Hcol), He. simpl. eauto.
Qed.

(** X14: once [getBenchmark] has returned a benchmark for a blob, it
    returns that same benchmark for the blob ever after, without looking
    at the storage: whatever the storage has become, the answer and the
    state are unchanged. *)
Theorem getBenchmark_never_reloads blob b (r : Repository)
    (cloud' : gmap string string) :
  (getBenchmark blob r).1 = Ok b ->
  benchmarkCache (getBenchmark blob r).2 !! blob = Some b /\
  getBenchmark blob (withStorage cloud' (getBenchmark blob r).2)
    = (Ok b, withStorage cloud' (getBenchmark blob r).2).
Proof.
  unfold getBenchmark at 1 3 5. unfold_repo.
  destruct (benchmarkCache r !! blob) as [b'|] eqn:Hhit; simpl.
  - intros [= ->]. split; [exact Hhit |].
    unfold getBenchmark. simpl. rewrite Hhit. reflexivity.
  - destruct (repositoryStorage r !! blob) as [buffer|]; simpl;
      [| discriminate].
    destruct (safeLoadBenchmark buffer) as [b'|]; simpl; [| discriminate].
    intros [= ->]. split; [apply lookup_insert_eq |].
    unfold getBenchmark. simpl. rewrite lookup_insert_eq. reflexivity.
Qed.

(** X15: after any number of crawls of any storage by a new Repository,
    a [select] that succeeds is on the [benchmarks] table, and it returns
    the four fixed columns and rows with one field per column. *)
Theorem select_after_crawls (cloud : gmap string string) (n : nat)
    from (res : SelectResults) :
  (select from (crawls n (newRepository cloud))).1 = Ok res ->
  from = benchmarkTableName /\
  resultColumns res = benchmarkColumns /\
  Forall (fun row => length row = length (resultColumns res))
    (resultRows res).
Proof.
  pose proof (crawls_wellFormed cloud n) as Hwf.
  unfold select, LocalDatabase.getColumns, LocalDatabase.select.
  destruct (database (crawls n (newRepository cloud)) !! from) as [t|] eqn:Ht;
    [| discriminate].
  simpl. intros [= <-]. simpl.
  destruct (Hwf _ _ Ht) as (-> & Hcols & Hrows).
  rewrite Hcols. auto.
Qed.

(** X16: the order in which the blobs are listed only orders the rows:
    two crawls by a new Repository over listings that are permutations of
    each other, with benchmarks that decode, give the same rows up to
    their order. *)
Theorem crawl_order_permutes_rows (cloud : gmap string string)
    (blobs blobs' : list string) :
  blobs ≡ₚ blobs' ->
  decodesAll cloud blobs = true ->
  tableRows benchmarkTableName
    (database (crawlLoop blobs (newRepository cloud)).2)
  ≡ₚ tableRows benchmarkTableName
       (database (crawlLoop blobs' (newRepository cloud)).2).
Proof.
  intros Hperm Hcheck.
  pose proof (decodesAll_sound cloud blobs Hcheck) as Hdecode.
  destruct (crawlLoop_ok blobs (newRepository cloud) (cacheAgrees_new cloud))
    as (_ & _ & ->); [exact Hdecode |].
  destruct (crawlLoop_ok blobs' (newRepository cloud) (cacheAgrees_new cloud))
    as (_ & _ & ->).
  { intros blob Hin. apply Hdecode. rewrite Hperm. exact Hin. }
  apply Permutation_app_head. simpl.
  apply benchmarkRows_Permutation, Hperm.
Qed.

(** X17: [n] complete crawls of an unchanged storage whose benchmarks
    decode leave [n] copies of the rows of one crawl in the [benchmarks]
    table, so [n] rows per benchmark blob. *)
Theorem crawls_multiply_rows (cloud : gmap string string) (n : nat) :
  benchmarksDecodeb cloud = true ->
  tableRows benchmarkTableName (database (crawls n (newRepository cloud)))
    = concat (replicate n (benchmarkRows cloud (RamDisk.listBlobs cloud))) /\
  length (tableRows benchmarkTableName
            (database (crawls n (newRepository cloud))))
    = n * length (benchmarkBlobs (RamDisk.listBlobs cloud)).
Proof.
  intros Hdecode%benchmarksDecodeb_sound.
  destruct (crawls_state cloud n Hdecode) as (_ & _ & _ & Hrows).
  split; [exact Hrows |]. rewrite Hrows. clear Hrows.
  rewrite <- (benchmarkRows_length cloud (RamDisk.listBlobs cloud) Hdecode).
  generalize (benchmarkRows cloud (RamDisk.listBlobs cloud)). intros rows.
  induction n as [|n IH]; [reflexivity |].
  cbn [replicate concat]. rewrite length_app, IH. lia.
Qed.

End CrawlFacts.

(* ===================================================================== *)
(** ** The statements at concrete inputs *)
(* ===================================================================== *)

#[local] Existing Instance Sample.naming.
#[local] Existing Instance Sample.yaml.
#[local] Existing Instance Sample.loaders.
#[local] Existing Instance Sample.secrets.

Lemma run_issues_two_workers_witness :
  (run Sample.lab "img/parser:1.0" "S1" Sample.submitted).1 = Ok tt /\
  workerRequests
    (events (run Sample.lab "img/parser:1.0" "S1" Sample.submitted).2) =
    workerRequests (events Sample.submitted)
    ++ [candidateWorker "img/parser:1.0" "0" Sample.C1plain;
        benchmarkWorker "img/parser:1.0" "S1" "img/true-false:1.0" "0"].
Proof.
  apply (@run_issues_two_workers Sample.naming Sample.yaml Sample.loaders
           Sample.secrets Sample.lab "img/parser:1.0" "S1"
           "img/true-false:1.0" Sample.S1 Sample.C1 Sample.C1plain
           Sample.submitted);
    vm_compute; reflexivity.
Defined.

Lemma run_benchmark_mismatch_witness :
  (run Sample.lab "img/parser:1.0" "S2" Sample.submitted).1
    = Throw (TypeError mismatch) /\
  logged (events (run Sample.lab "img/parser:1.0" "S2" Sample.submitted).2) =
    logged (events Sample.submitted)
    ++ [runMessage "img/parser:1.0" "S2"; mismatch] /\
  workerRequests
    (events (run Sample.lab "img/parser:1.0" "S2" Sample.submitted).2) =
    workerRequests (events Sample.submitted).
Proof.
  apply (@run_benchmark_mismatch Sample.naming Sample.yaml Sample.loaders
           Sample.secrets Sample.lab "img/parser:1.0" "S2" Sample.submitted
           (Sample.dump (ASuite Sample.S2)) (Sample.dump (ACandidate Sample.C1))
           Sample.S2 Sample.C1);
    vm_compute; first [reflexivity | discriminate].
Defined.

Lemma run_decryption_failure_witness :
  (run Sample.lab "img/broken:1.0" "S1" Sample.submitted).1
    = Throw (SecretsError "password") /\
  workerRequests
    (events (run Sample.lab "img/broken:1.0" "S1" Sample.submitted).2) =
    workerRequests (events Sample.submitted).
Proof.
  apply (@run_decryption_failure Sample.naming Sample.yaml Sample.loaders
           Sample.secrets Sample.lab "img/broken:1.0" "S1" Sample.submitted
           (Sample.dump (ASuite Sample.S1)) (Sample.dump (ACandidate Sample.C2))
           Sample.S1 Sample.C2);
    vm_compute; reflexivity.
Defined.

Lemma run_suite_not_found_witness :
  cloudStorage Sample.submitted !! "suites/S9" = None /\
  (run Sample.lab "img/parser:1.0" "S9" Sample.submitted).1
    = Throw (TypeError "Cannot find suite S9") /\
  candidateLoads
    (events (run Sample.lab "img/parser:1.0" "S9" Sample.submitted).2) = [].
Proof.
  split; [vm_compute; reflexivity |].
  destruct (@run_suite_not_found Sample.naming Sample.yaml Sample.loaders
              Sample.secrets Sample.lab "img/parser:1.0" "S9" Sample.submitted)
    as (Hthrow & Hloads & _); [vm_compute; reflexivity |].
  split; [exact Hthrow | rewrite Hloads; vm_compute; reflexivity].
Defined.

Lemma run_keeps_cloud_storage_witness :
  cloudStorage (run Sample.lab "img/parser:1.0" "S1" Sample.submitted).2
    = cloudStorage Sample.submitted.
Proof.
  apply (@run_keeps_cloud_storage Sample.naming Sample.yaml Sample.loaders
           Sample.secrets Sample.lab "img/parser:1.0" "S1" Sample.submitted).
  vm_compute; reflexivity.
Defined.

Lemma create_existing_key_fails_witness :
  cloudStorage Sample.submitted !! "suites/S1"
    = Some (Sample.dump (ASuite Sample.S1)) /\
  (create (ASuite Sample.S2') Sample.submitted).1
    = Throw (StorageError "suites/S1") /\
  (create (ASuite Sample.S2') Sample.submitted).2 = Sample.submitted /\
  cloudStorage (create (ASuite Sample.S2') Sample.submitted).2 !! "suites/S1"
    = Some (Sample.dump (ASuite Sample.S1)).
Proof.
  split; [vm_compute; reflexivity |].
  apply (@create_existing_key_fails Sample.naming Sample.yaml
           (ASuite Sample.S2') "suites/S1" (Sample.dump (ASuite Sample.S1))
           Sample.submitted);
    vm_compute; reflexivity.
Defined.

Lemma create_unsupported_kind_witness :
  (create (AOther "run" (SuiteDescription.entity Sample.S1)) Sample.submitted).1
    = Throw (TypeError (unsupportedKind "run")) /\
  logged
    (events (create (AOther "run" (SuiteDescription.entity Sample.S1))
               Sample.submitted).2)
    = logged (events Sample.submitted) ++ [unsupportedKind "run"] /\
  cloudStorage
    (create (AOther "run" (SuiteDescription.entity Sample.S1))
       Sample.submitted).2
    = cloudStorage Sample.submitted.
Proof.
  apply (@create_unsupported_kind Sample.naming Sample.yaml
           (AOther "run" (SuiteDescription.entity Sample.S1)) Sample.submitted);
    discriminate.
Defined.

Lemma crawl_records_only_benchmarks_witness :
  Sample.cloud1 !! "runs/r1" = Some "run one" /\
  database (settle (initialize (newRepository Sample.cloud1)).2) !! "runs"
    = None /\
  (select "runs" (settle (initialize (newRepository Sample.cloud1)).2)).1
    = Throw (DatabaseError "runs") /\
  pending (settle (initialize (newRepository Sample.cloud1)).2) = [].
Proof.
  split; [vm_compute; reflexivity |].
  apply (@crawl_records_only_benchmarks Sample.naming Sample.yaml
           Sample.cloud1 "runs").
  discriminate.
Defined.

Lemma initialize_twice_duplicates_witness :
  length (benchmarkBlobs (RamDisk.listBlobs Sample.cloud1)) = 1 /\
  tableRows benchmarkTableName
    (database
       (settle (initialize
          (settle (initialize (newRepository Sample.cloud1)).2)).2))
    = [benchmarkRow Sample.B1; benchmarkRow Sample.B1].
Proof.
  split; [vm_compute; reflexivity |].
  destruct (@initialize_twice_duplicates Sample.naming Sample.yaml
              Sample.cloud1) as (_ & _ & Hrows & _);
    [vm_compute; reflexivity |].
  rewrite Hrows. vm_compute. reflexivity.
Defined.

(** On the sample storage the race of C9 is visible: right after
    [initialize] the [benchmarks] table does not exist, and it holds the
    row once the pending crawl has run. *)
Example select_after_initialize :
  (select "benchmarks" (initialize (newRepository Sample.cloud1)).2).1
    = Throw (DatabaseError "benchmarks") /\
  (select "benchmarks"
     (settle (initialize (newRepository Sample.cloud1)).2)).1
    = Ok {| resultColumns := benchmarkColumns;
            resultRows := [benchmarkRow Sample.B1] |}.
Proof. split; vm_compute; reflexivity. Qed.

(* ===================================================================== *)
(** ** The further facts at concrete inputs *)
(* ===================================================================== *)

Lemma create_stores_under_key_witness :
  (create (ASuite Sample.S1) Sample.emptyWorld).1 = Ok "suites/S1" /\
  cloudStorage (create (ASuite Sample.S1) Sample.emptyWorld).2 !! "suites/S1"
    = Some (Sample.dump (ASuite Sample.S1)).
Proof.
  destruct (@create_stores_under_key Sample.naming Sample.yaml
              (ASuite Sample.S1) "suites/S1" Sample.emptyWorld)
    as (Hkey & Hblob & _); [vm_compute; reflexivity .. |].
  split; [exact Hkey | exact Hblob].
Defined.

Lemma create_first_wins_witness :
  (create (ASuite Sample.S2')
     (create (ASuite Sample.S1) Sample.emptyWorld).2).1
    = Throw (StorageError "suites/S1") /\
  cloudStorage
    (create (ASuite Sample.S2')
       (create (ASuite Sample.S1) Sample.emptyWorld).2).2 !! "suites/S1"
    = Some (Sample.dump (ASuite Sample.S1)).
Proof.
  apply (@create_first_wins Sample.naming Sample.yaml
           (ASuite Sample.S1) (ASuite Sample.S2') "suites/S1"
           Sample.emptyWorld);
    vm_compute; reflexivity.
Defined.

Lemma run_candidate_not_found_witness :
  (run Sample.lab "img/none:1.0" "S1" Sample.submitted).1
    = Throw (TypeError "Cannot find candidate img/none:1.0") /\
  runsCreated (run Sample.lab "img/none:1.0" "S1" Sample.submitted).2 = 0.
Proof.
  destruct (@run_candidate_not_found Sample.naming Sample.yaml Sample.loaders
              Sample.secrets Sample.lab "img/none:1.0" "S1" Sample.submitted
              Sample.S1)
    as (Hthrow & _ & _ & Hruns); [vm_compute; reflexivity .. |].
  split; [exact Hthrow | exact Hruns].
Defined.

Lemma run_undecodable_suite_witness :
  cloudStorage Fixture.garbled !! "suites/bad" = Some "not a suite" /\
  (run Sample.lab "img/parser:1.0" "bad" Fixture.garbled).1
    = Throw (TypeError "Cannot find suite bad").
Proof.
  split; [vm_compute; reflexivity |].
  apply (@run_undecodable_suite Sample.naming Sample.yaml Sample.loaders
           Sample.secrets Sample.lab "img/parser:1.0" "bad" Fixture.garbled
           "not a suite");
    vm_compute; reflexivity.
Defined.

Lemma run_twice_distinct_hosts_witness :
  exists requests,
    workerRequests
      (events
         (run Sample.lab "img/parser:1.0" "S1"
            (run Sample.lab "img/parser:1.0" "S1" Sample.submitted).2).2)
      = workerRequests (events Sample.submitted) ++ requests /\
    hostname <$> requests = ["c0"; "b0"; "c10"; "b10"] /\
    NoDup (hostname <$> requests).
Proof.
  apply (@run_twice_distinct_hosts Sample.naming Sample.yaml Sample.loaders
           Sample.secrets Sample.lab "img/parser:1.0" "S1" "img/parser:1.0"
           "S1" Sample.submitted);
    vm_compute; first [reflexivity | discriminate].
Defined.

Lemma run_order_of_effects_witness :
  exists candidateRequest benchmarkRequest,
    hostname candidateRequest = "c0" /\
    hostname benchmarkRequest = "b0" /\
    events (run Sample.lab "img/parser:1.0" "S1" Sample.submitted).2 =
      events Sample.submitted
      ++ [Log "run(img/parser:1.0, S1)";
          LoadSuite "S1";
          LoadCandidate "img/parser:1.0";
          Log ("Starting candidate img/parser:1.0 on "
               +:+ hostname candidateRequest);
          CreateWorker candidateRequest;
          Log ("Starting benchmark " +:+ imageId benchmarkRequest +:+ " on "
               +:+ hostname benchmarkRequest);
          CreateWorker benchmarkRequest].
Proof.
  apply (@run_order_of_effects Sample.naming Sample.yaml Sample.loaders
           Sample.secrets Sample.lab "img/parser:1.0" "S1" Sample.submitted).
  vm_compute; reflexivity.
Defined.

Lemma run_reads_two_blobs_witness :
  cloudStorage Fixture.trimmed !! "benchmarks/img/true-false:1.0" = None /\
  (run Sample.lab "img/parser:1.0" "S1" Fixture.trimmed).1
    = (run Sample.lab "img/parser:1.0" "S1" Sample.submitted).1.
Proof.
  split; [vm_compute; reflexivity |].
  apply (@run_reads_two_blobs Sample.naming Sample.yaml Sample.loaders
           Sample.secrets Sample.lab "img/parser:1.0" "S1" Fixture.trimmed
           Sample.submitted);
    vm_compute; reflexivity.
Defined.

Lemma create_then_run_witness :
  (run Sample.lab "img/parser:1.0" "S1"
     (create (ACandidate Sample.C1)
        (create (ASuite Sample.S1) Sample.emptyWorld).2).2).1 = Ok tt /\
  workerRequests
    (events
       (run Sample.lab "img/parser:1.0" "S1"
          (create (ACandidate Sample.C1)
             (create (ASuite Sample.S1) Sample.emptyWorld).2).2).2)
    = [candidateWorker "img/parser:1.0" "0" Sample.C1plain;
       benchmarkWorker "img/parser:1.0" "S1" "img/true-false:1.0" "0"].
Proof.
  apply (@create_then_run Sample.naming Sample.yaml Sample.loaders
           Sample.secrets Sample.lab "img/parser:1.0" "S1" Sample.S1 Sample.C1
           Sample.C1plain Sample.emptyWorld);
    vm_compute; first [reflexivity | discriminate].
Defined.

Lemma crawl_skips_other_blobs_witness :
  crawlLoop ["runs/r1"; "logs/c1"; "suites/S1"; "README"]
    (newRepository Sample.cloud1)
    = (Ok tt, newRepository Sample.cloud1).
Proof.
  apply (@crawl_skips_other_blobs Sample.naming Sample.yaml).
  vm_compute; reflexivity.
Defined.

Lemma crawl_stops_at_bad_benchmark_witness :
  Sample.parseBenchmark
    <$> Fixture.cloud2 !! "benchmarks/img/true-false:1.0"
    = Some (Some Sample.B1) /\
  database
    (crawlLoop ["benchmarks/bad"; "benchmarks/img/true-false:1.0"]
       (newRepository Fixture.cloud2)).2 = ∅.
Proof.
  split; [vm_compute; reflexivity |].
  destruct (@crawl_stops_at_bad_benchmark Sample.naming Sample.yaml
              "benchmarks/bad" ["benchmarks/img/true-false:1.0"]
              (newRepository Fixture.cloud2))
    as (_ & Hdb & _); [vm_compute; reflexivity .. |].
  exact Hdb.
Defined.

Lemma getBenchmark_never_reloads_witness :
  (getBenchmark "benchmarks/img/true-false:1.0"
     (withStorage ∅
        (getBenchmark "benchmarks/img/true-false:1.0"
           (newRepository Sample.cloud1)).2)).1 = Ok Sample.B1.
Proof.
  destruct (@getBenchmark_never_reloads Sample.yaml
              "benchmarks/img/true-false:1.0" Sample.B1
              (newRepository Sample.cloud1) ∅) as (_ & ->);
    [vm_compute; reflexivity |].
  reflexivity.
Defined.

Lemma select_after_crawls_witness :
  (select "benchmarks" (crawls 2 (newRepository Sample.cloud1))).1
    = Ok {| resultColumns := benchmarkColumns;
            resultRows := [benchmarkRow Sample.B1; benchmarkRow Sample.B1] |} /\
  Forall (fun row => length row = 4)
    [benchmarkRow Sample.B1; benchmarkRow Sample.B1].
Proof.
  assert ((select "benchmarks" (crawls 2 (newRepository Sample.cloud1))).1
          = Ok {| resultColumns := benchmarkColumns;
                  resultRows := [benchmarkRow Sample.B1;
                                 benchmarkRow Sample.B1] |}) as Hsel
    by (vm_compute; reflexivity).
  split; [exact Hsel |].
  destruct (@select_after_crawls Sample.naming Sample.yaml Sample.cloud1 2
              "benchmarks" _ Hsel) as (_ & _ & Hrows).
  exact Hrows.
Defined.

Lemma crawl_order_permutes_rows_witness :
  tableRows benchmarkTableName
    (database
       (crawlLoop ["benchmarks/img/true-false:1.0"; "runs/r1";
                   "benchmarks/img/other:1.0"]
          (newRepository Fixture.cloud3)).2)
  ≡ₚ tableRows benchmarkTableName
       (database
          (crawlLoop ["benchmarks/img/other:1.0"; "runs/r1";
                      "benchmarks/img/true-false:1.0"]
             (newRepository Fixture.cloud3)).2).
Proof.
  apply (@crawl_order_permutes_rows Sample.naming Sample.yaml Fixture.cloud3).
  - etransitivity; [apply perm_skip, perm_swap |].
    etransitivity; [apply perm_swap |].
    apply perm_skip, perm_swap.
  - vm_compute; reflexivity.
Defined.

Lemma crawls_multiply_rows_witness :
  length
    (tableRows benchmarkTableName
       (database (crawls 3 (newRepository Fixture.cloud3)))) = 6.
Proof.
  destruct (@crawls_multiply_rows Sample.naming Sample.yaml Fixture.cloud3 3)
    as (_ & ->); [vm_compute; reflexivity |].
  vm_compute. reflexivity.
Defined.
